(** * FiftyOne: the v0.7.2 revision and the state controller

    A shallow embedding of

    - [fiftyone/migrations/revisions/v0_7_2.py]: the [up] and [down]
      transforms of the v0.7.2 schema boundary, run against a MongoDB
      database handle through pymongo;
    - [fiftyone/server/main.py]: the [StateController] socket namespace.

    Python values are a small inductive type, a MongoDB database is a finite
    map from collection names to lists of documents, and the migration runs
    in a state-and-exception monad over that database. *)

From Stdlib Require Import ZArith NArith Ascii String List Bool Lia.
From stdpp Require Import base option gmap strings.
Import ListNotations.

Local Open Scope string_scope.
Local Open Scope list_scope.
#[local] Set Warnings "-register-all".

(** ** Python values *)

Module Py.

(** The values a decoded BSON document or a JSON payload is made of.
    Dictionaries keep their insertion order, as Python dicts and BSON
    documents do. Floats, dates and binary data are left out. *)
Inductive value : Type :=
| VNone
| VBool (b : bool)
| VInt (n : Z)
| VStr (s : string)
| VOid (n : N)
| VList (l : list value)
| VDict (d : list (string * value)).

Abbreviation doc := (list (string * value)).

(** The exceptions the modelled code can raise. [InvalidName] and
    [InvalidOperation] are pymongo's. *)
Inductive exn : Type :=
| KeyError (k : string)
| TypeError
| AttributeError
| InvalidName
| InvalidOperation.

Inductive result (A : Type) : Type :=
| Ok (a : A)
| Raise (e : exn).
Arguments Ok {A} a.
Arguments Raise {A} e.

Definition rbind {A B} (r : result A) (k : A -> result B) : result B :=
  match r with
  | Ok a => k a
  | Raise e => Raise e
  end.

(** [d.get(k)]: the value stored under [k], if any. *)
Fixpoint dict_get (k : string) (d : doc) : option value :=
  match d with
  | [] => None
  | (k', v) :: rest => if String.eqb k k' then Some v else dict_get k rest
  end.

(** [d[k] = v]: overwrite in place when [k] is present, append otherwise. *)
Fixpoint dict_set (k : string) (v : value) (d : doc) : doc :=
  match d with
  | [] => [(k, v)]
  | (k', v') :: rest =>
      if String.eqb k k' then (k', v) :: rest else (k', v') :: dict_set k v rest
  end.

(** Removal of key [k] (a no-op when [k] is absent). *)
Fixpoint dict_del (k : string) (d : doc) : doc :=
  match d with
  | [] => []
  | (k', v') :: rest =>
      if String.eqb k k' then dict_del k rest else (k', v') :: dict_del k rest
  end.

(** [v[k]] for a string key [k]: only a dict can be subscripted by a
    string; a missing key is a [KeyError]. *)
Definition getitem (v : value) (k : string) : result value :=
  match v with
  | VDict d =>
      match dict_get k d with
      | Some x => Ok x
      | None => Raise (KeyError k)
      end
  | _ => Raise TypeError
  end.

(** [v[k] = x] for a string key [k]. *)
Definition setitem (v : value) (k : string) (x : value) : result value :=
  match v with
  | VDict d => Ok (VDict (dict_set k x d))
  | _ => Raise TypeError
  end.

(** [for x in v]: the items a [for] loop visits. *)
Definition iter (v : value) : result (list value) :=
  match v with
  | VList l => Ok l
  | VDict d => Ok (map (fun kv => VStr (fst kv)) d)
  | VStr s => Ok (map (fun c => VStr (String c EmptyString)) (list_ascii_of_string s))
  | _ => Raise TypeError
  end.

(** [v.append(x)]: only lists have the method. *)
Definition append (v x : value) : result value :=
  match v with
  | VList l => Ok (VList (l ++ [x]))
  | _ => Raise AttributeError
  end.

(** [v == s] for a string literal [s]. *)
Definition eq_str (v : value) (s : string) : bool :=
  match v with
  | VStr s' => String.eqb s' s
  | _ => false
  end.

(** [bool(v)], the test an [if v:] performs. *)
Definition truthy (v : value) : bool :=
  match v with
  | VNone => false
  | VBool b => b
  | VInt n => negb (Z.eqb n 0)
  | VStr s => negb (String.eqb s "")
  | VOid _ => true
  | VList l => match l with [] => false | _ => true end
  | VDict d => match d with [] => false | _ => true end
  end.

(** Structural equality, the way MongoDB compares a stored value with a
    query value: field order of embedded documents is significant. *)
Fixpoint value_eqb (a b : value) : bool :=
  match a, b with
  | VNone, VNone => true
  | VBool x, VBool y => Bool.eqb x y
  | VInt x, VInt y => Z.eqb x y
  | VStr x, VStr y => String.eqb x y
  | VOid x, VOid y => N.eqb x y
  | VList x, VList y =>
      (fix go (l1 l2 : list value) : bool :=
         match l1, l2 with
         | [], [] => true
         | h1 :: t1, h2 :: t2 => value_eqb h1 h2 && go t1 t2
         | _, _ => false
         end) x y
  | VDict x, VDict y =>
      (fix go (l1 l2 : doc) : bool :=
         match l1, l2 with
         | [], [] => true
         | (k1, h1) :: t1, (k2, h2) :: t2 =>
             String.eqb k1 k2 && value_eqb h1 h2 && go t1 t2
         | _, _ => false
         end) x y
  | _, _ => false
  end.

End Py.
Import Py.

(** ** The pymongo operations the revision calls *)

Module Mongo.

(** A database maps collection names to their documents, in natural
    order. A name with no entry is a collection that does not exist yet
    and reads as empty. *)
Abbreviation db := (gmap string (list doc)).

Definition docs (c : string) (s : db) : list doc := default [] (s !! c).

(** State-and-exception monad: a raised exception keeps the writes done
    before it. *)
Definition M (A : Type) : Type := db -> db * result A.

Definition ret {A} (a : A) : M A := fun s => (s, Ok a).
Definition raise {A} (e : exn) : M A := fun s => (s, Raise e).
Definition bind {A B} (m : M A) (k : A -> M B) : M B :=
  fun s =>
    match m s with
    | (s', Ok a) => k a s'
    | (s', Raise e) => (s', Raise e)
    end.
Definition lift {A} (r : result A) : M A := fun s => (s, r).
Definition modify (f : db -> db) : M unit := fun s => (f s, Ok tt).

Declare Scope mongo_scope.
Delimit Scope mongo_scope with mongo.
Notation "x <- m ;; k" := (bind m (fun x => k))
  (at level 100, m at next level, right associativity) : mongo_scope.
Notation "m ;; k" := (bind m (fun _ => k))
  (at level 100, right associativity) : mongo_scope.

(** The equality condition [{k: q}] on a document: the stored value is
    [q], or is an array holding [q]; a [null] query also matches a
    missing field. The server reads a query value that is a document
    whose first key starts with a dollar sign as an operator expression;
    here it is compared like any other value, so a statement that
    depends on which document a filter selects is made for literal
    query values (strings, integers, object ids). *)
Definition field_matches (k : string) (q : value) (d : doc) : bool :=
  match dict_get k d with
  | Some w =>
      value_eqb w q ||
      match w with
      | VList l => existsb (fun x => value_eqb x q) l
      | _ => false
      end
  | None => match q with VNone => true | _ => false end
  end.

(** A filter document is the conjunction of its conditions; [{}] matches
    every document. *)
Definition matches (q : doc) (d : doc) : bool :=
  forallb (fun kv => field_matches (fst kv) (snd kv) d) q.

Fixpoint find_first (p : doc -> bool) (l : list doc) : option doc :=
  match l with
  | [] => None
  | d :: rest => if p d then Some d else find_first p rest
  end.

(** Apply [f] to the first document satisfying [p]. *)
Fixpoint update_first (p : doc -> bool) (f : doc -> doc) (l : list doc) : list doc :=
  match l with
  | [] => []
  | d :: rest => if p d then f d :: rest else d :: update_first p f rest
  end.

(** [db[name]]: pymongo builds a [Collection], whose constructor checks
    the name. *)
Fixpoint has_char (c : ascii) (s : string) : bool :=
  match s with
  | EmptyString => false
  | String a rest => Ascii.eqb a c || has_char c rest
  end.

Fixpoint has_dotdot (s : string) : bool :=
  match s with
  | String a (String b _ as rest) =>
      (Ascii.eqb a "." && Ascii.eqb b ".") || has_dotdot rest
  | _ => false
  end.

Fixpoint last_char (s : string) : option ascii :=
  match s with
  | EmptyString => None
  | String a EmptyString => Some a
  | String _ rest => last_char rest
  end.

Definition collection_name_ok (name : string) : bool :=
  negb (String.eqb name "")
  && negb (has_dotdot name)
  && (negb (has_char "$" name)
      || String.prefix "oplog.$main" name || String.prefix "$cmd" name)
  && negb (match name with String "." _ => true | _ => false end)
  && negb (match last_char name with Some "."%char => true | _ => false end)
  && negb (has_char "000" name).

Definition collection (name : value) : result string :=
  match name with
  | VStr c => if collection_name_ok c then Ok c else Raise InvalidName
  | _ => Raise TypeError
  end.

(** [coll.find_one(q)]: the first matching document, or [None]. *)
Definition find_one (c : string) (q : doc) : M value :=
  fun s =>
    (s, Ok match find_first (matches q) (docs c s) with
           | Some d => VDict d
           | None => VNone
           end).

(** [coll.find(q)], with the cursor read to its end. *)
Definition find (c : string) (q : doc) : M (list doc) :=
  fun s => (s, Ok (List.filter (matches q) (docs c s))).

(** [coll.replace_one(q, replacement)]: the first matching document is
    replaced in place; nothing is inserted when none matches. The
    replacement has to be a document. *)
Definition replace_one (c : string) (q : doc) (replacement : value) : M unit :=
  match replacement with
  | VDict d' => modify (alter (update_first (matches q) (fun _ => d')) c)
  | _ => raise TypeError
  end.

(** [coll.update_many({}, {"$unset": {k: ""}})]. *)
Definition update_many_unset (c : string) (k : string) : M unit :=
  modify (alter (map (dict_del k)) c).

(** [pymongo.UpdateOne(filter, {"$set": fields})]. *)
Record update_one : Type := UpdateOne { uo_filter : doc; uo_set : doc }.

Definition set_fields (fields : doc) (d : doc) : doc :=
  fold_left (fun acc kv => dict_set (fst kv) (snd kv) acc) fields d.

Definition apply_update_one (l : list doc) (w : update_one) : list doc :=
  update_first (matches (uo_filter w)) (set_fields (uo_set w)) l.

(** [coll.bulk_write(requests)]: the requests are applied in order.
    pymongo refuses an empty request list with [InvalidOperation]
    ("No operations to execute") before anything is sent. *)
Definition bulk_write (c : string) (requests : list update_one) : M unit :=
  match requests with
  | [] => raise InvalidOperation
  | _ => modify (alter (fun l => fold_left apply_update_one requests l) c)
  end.

End Mongo.
Import Mongo.

(** ** The v0.7.2 revision *)

Module v0_7_2.

Local Open Scope mongo_scope.

(** The loop of [up]: every field whose ["name"] is ["frames"] is
    skipped, the others are appended to [fields] in order. *)
Fixpoint up_fields (items : list value) (fields : list value) : result (list value) :=
  match items with
  | [] => Ok fields
  | field :: rest =>
      rbind (getitem field "name") (fun name =>
        if eq_str name "frames" then up_fields rest fields
        else up_fields rest (fields ++ [field]))
  end.

Definition up (dataset_name : string) : M unit :=
  let match_d := [("name", VStr dataset_name)] in
  dataset_dict <- find_one "datasets" match_d ;;
  media_type <- lift (getitem dataset_dict "media_type") ;;
  if negb (eq_str media_type "video") then ret tt else
  sample_fields <- lift (getitem dataset_dict "sample_fields") ;;
  items <- lift (iter sample_fields) ;;
  fields <- lift (up_fields items []) ;;
  dataset_dict <- lift (setitem dataset_dict "sample_fields" (VList fields)) ;;
  replace_one "datasets" match_d dataset_dict ;;
  name <- lift (getitem dataset_dict "sample_collection_name") ;;
  sample_coll <- lift (collection name) ;;
  update_many_unset sample_coll "frames".

(** The field descriptor [down] appends. *)
Definition frames : value :=
  VDict [("name", VStr "frames");
         ("ftype", VStr "fiftyone.core.fields.EmbeddedDocumentField");
         ("subfield", VNone);
         ("embedded_doc_type", VStr "fiftyone.core.labels._Frames")].

(** The loop of [down] over the cursor: one [UpdateOne] per document,
    keyed by its ["_sample_id"]. *)
Fixpoint down_writes (first_frames : list doc) (writes : list update_one)
  : result (list update_one) :=
  match first_frames with
  | [] => Ok writes
  | f :: rest =>
      let frame_d := VDict [("first_frame", VDict f)] in
      rbind (getitem (VDict f) "_sample_id") (fun sample_id =>
        down_writes rest
          (writes ++ [UpdateOne [("_id", sample_id)] [("frames", frame_d)]]))
  end.

(** The argument [down] passes to [aggregate]: a single stage, not a list
    of stages. *)
Definition group_stage : value :=
  VDict [("$group",
          VDict [("_id", VStr "$_sample_id");
                 ("count", VDict [("$sum", VInt 1)])])].

Section Down.

(** [coll.aggregate(pipeline)] only reads the database. What it returns
    (or raises) for a given pipeline is left open. *)
Variable aggregate : string -> value -> db -> result (list value).

(** Lines 58 to 63: the counts are fetched and the loop body is [pass]. *)
Definition frame_counts (frame_coll : string) : M unit :=
  counts <- (fun s => (s, aggregate frame_coll group_stage s)) ;;
  let writes : list update_one := [] in
  fold_left (fun acc (count : value) => acc ;; ret tt) counts (ret tt).

(** [down] up to and including the bulk write, followed by [rest] run on
    the handle bound to [frame_coll]. Both [frame_coll] and [sample_coll]
    are looked up under ["sample_collection_name"]. The appended
    descriptor lives in the local [dataset_dict] only: nothing writes it
    back to the catalog. *)
Definition down_then (rest : string -> M unit) (dataset_name : string) : M unit :=
  let match_d := [("name", VStr dataset_name)] in
  dataset_dict <- find_one "datasets" match_d ;;
  media_type <- lift (getitem dataset_dict "media_type") ;;
  if negb (eq_str media_type "video") then ret tt else
  sample_fields <- lift (getitem dataset_dict "sample_fields") ;;
  sample_fields <- lift (append sample_fields frames) ;;
  dataset_dict <- lift (setitem dataset_dict "sample_fields" sample_fields) ;;
  name <- lift (getitem dataset_dict "sample_collection_name") ;;
  frame_coll <- lift (collection name) ;;
  name <- lift (getitem dataset_dict "sample_collection_name") ;;
  sample_coll <- lift (collection name) ;;
  first_frames <- find frame_coll [("frame_number", VInt 1)] ;;
  writes <- lift (down_writes first_frames []) ;;
  bulk_write sample_coll writes ;;
  rest frame_coll.

Definition down : string -> M unit := down_then frame_counts.

(** [down] with lines 58 to 63 deleted. *)
Definition down_without_counts : string -> M unit := down_then (fun _ => ret tt).

End Down.

End v0_7_2.

(** ** The state controller of the server *)

Module StateController.

(** A connected socket session. *)
Definition sid : Type := nat.

(** What a handler does besides updating the controller's attributes. *)
Inductive event : Type :=
| LoadDataset (name : value)
| IterSamples
| Emit (ev : string) (payload : value) (recipients : list sid).

Section Controller.

(** [fiftyone.core.dataset.Dataset] and [query.Query([]).iter_samples]
    are not part of the sources at hand: the handler is parametrised over
    them, and either may raise. *)
Variables DS IT : Type.
Variable Dataset : value -> result DS.
Variable iter_samples : DS -> result IT.

(** The attributes of the one [StateController] instance registered for
    the ["/state"] namespace. *)
Record controller : Type := Controller {
  state : value;
  it : option IT;
  ds : option DS
}.

Definition initial : controller :=
  {| state := VDict [("dataset_name", VNone); ("query", VNone);
                     ("view_tag", VNone); ("samples", VList [])];
     it := None;
     ds := None |}.

Record server : Type := Server {
  self : controller;
  connected : list sid;
  trace : list event
}.

Definition log (e : event) (w : server) : server :=
  {| self := self w; connected := connected w; trace := trace w ++ [e] |}.

Definition set_self (c : controller) (w : server) : server :=
  {| self := c; connected := connected w; trace := trace w |}.

(** [emit(ev, payload, broadcast=True, include_self=False)] issued while
    handling a message of [sender]: every connected session but the
    sender receives it. *)
Definition emit (ev : string) (payload : value) (sender : sid) (w : server) : server :=
  log (Emit ev payload (List.filter (fun r => negb (Nat.eqb r sender)) (connected w))) w.

Definition on_update (sender : sid) (st : value) (w : server) : server * result unit :=
  match getitem st "dataset_name" with
  | Raise e => (w, Raise e)
  | Ok name =>
      if truthy name then
        let w := log (LoadDataset name) w in
        match Dataset name with
        | Raise e => (w, Raise e)
        | Ok d =>
            let w := set_self {| state := state (self w); it := it (self w); ds := Some d |} w in
            let w := log IterSamples w in
            match iter_samples d with
            | Raise e => (w, Raise e)
            | Ok i =>
                let w := set_self {| state := state (self w); it := Some i; ds := ds (self w) |} w in
                let w := set_self {| state := st; it := it (self w); ds := ds (self w) |} w in
                (emit "update" st sender w, Ok tt)
            end
        end
      else (w, Ok tt)
  end.

Definition on_get_current_state (_ : value) (w : server) : server * result value :=
  (w, Ok (state (self w))).

(** The handlers whose body is [pass]. *)
Definition on_connect (w : server) : server * result unit := (w, Ok tt).
Definition on_disconnect (w : server) : server * result unit := (w, Ok tt).
Definition on_previous (_ : value) (w : server) : server * result unit := (w, Ok tt).
Definition on_get (page : value) (w : server) : server * result unit := (w, Ok tt).

(** An update [on_update] goes through with: its [dataset_name] is
    truthy and both loads succeed. *)
Definition accepted (st : value) : bool :=
  match getitem st "dataset_name" with
  | Ok name =>
      truthy name &&
      match Dataset name with
      | Ok d => match iter_samples d with Ok _ => true | Raise _ => false end
      | Raise _ => false
      end
  | Raise _ => false
  end.

(** The updates of several sessions, handled one after the other. An
    exception ends the handling of its message only. *)
Definition handle_updates (msgs : list (sid * value)) (w : server) : server :=
  fold_left (fun w m => fst (on_update (fst m) (snd m) w)) msgs w.

End Controller.

(** The payloads emitted along a trace, in order. *)
Definition emitted (t : list event) : list value :=
  flat_map (fun e => match e with Emit _ payload _ => [payload] | _ => [] end) t.

Arguments state {DS IT} _.
Arguments it {DS IT} _.
Arguments ds {DS IT} _.
Arguments self {DS IT} _.
Arguments connected {DS IT} _.
Arguments trace {DS IT} _.
Arguments Server {DS IT} _ _ _.
Arguments initial {DS IT}.
Arguments on_update {DS IT} _ _ _ _ _.
Arguments on_get_current_state {DS IT} _ _.
Arguments handle_updates {DS IT} _ _ _ _.

(** Two connected sessions and a controller that has received nothing
    yet; every dataset loads. *)
Definition always_loads : value -> result unit := fun _ => Ok tt.
Definition always_iterates : unit -> result unit := fun _ => Ok tt.

(** No sample iterator can be built. *)
Definition never_iterates : unit -> result unit := fun _ => Raise TypeError.

Definition two_sessions : server unit unit :=
  Server initial [1; 2] [].

Definition update_for (dataset_name : value) : value :=
  VDict [("dataset_name", dataset_name); ("query", VNone);
         ("view_tag", VStr "mine"); ("samples", VList [])].

End StateController.

(** ** A video dataset: [flowers], one sample, three frames *)

Module Flowers.

Definition filepath_field : value :=
  VDict [("name", VStr "filepath");
         ("ftype", VStr "fiftyone.core.fields.StringField");
         ("subfield", VNone);
         ("embedded_doc_type", VNone)].

Definition descriptor (media_type : string) (fields : list value) : doc :=
  [("_id", VOid 1);
   ("name", VStr "flowers");
   ("media_type", VStr media_type);
   ("sample_collection_name", VStr "samples.flowers");
   ("frame_collection_name", VStr "frames.samples.flowers");
   ("sample_fields", VList fields)].

Definition frame (oid : N) (frame_number : Z) : doc :=
  [("_id", VOid oid); ("_sample_id", VOid 10); ("frame_number", VInt frame_number)].

Definition frame_docs : list doc := [frame 101 1; frame 102 2; frame 103 3].

(** The sample as it is before [up], and as it is after. *)
Definition sample_with_frames : doc :=
  [("_id", VOid 10);
   ("filepath", VStr "/data/rose.mp4");
   ("frames", VDict [("first_frame", VDict (frame 101 1)); ("frame_count", VInt 3)])].

Definition sample : doc :=
  [("_id", VOid 10); ("filepath", VStr "/data/rose.mp4")].

Definition store (descr : doc) (samples : list doc) : db :=
  <["datasets" := [descr]]>
    (<["samples.flowers" := samples]>
       (<["frames.samples.flowers" := frame_docs]> ∅)).

Definition before_up : db :=
  store (descriptor "video" [v0_7_2.frames; filepath_field]) [sample_with_frames].

Definition after_up : db :=
  store (descriptor "video" [filepath_field]) [sample].

(** The same dataset with the collection name missing from its catalog
    entry. *)
Definition descriptor_without_collection : doc :=
  [("_id", VOid 1);
   ("name", VStr "flowers");
   ("media_type", VStr "video");
   ("sample_fields", VList [v0_7_2.frames; filepath_field])].

Definition without_collection : db :=
  store descriptor_without_collection [sample_with_frames].

(** The same dataset with nothing but its name in the catalog entry. *)
Definition untyped : db :=
  store [("_id", VOid 1); ("name", VStr "flowers")] [sample].

(** An image dataset. *)
Definition images : db :=
  store (descriptor "image" [filepath_field]) [sample].

(** [flowers] with a field descriptor that has no name. *)
Definition unnamed_field : db :=
  store (descriptor "video"
           [filepath_field; VDict [("ftype", VStr "fiftyone.core.fields.IntField")]])
    [sample_with_frames].


(** [flowers] next to an image dataset, [birds]. *)
Definition birds : doc :=
  [("_id", VOid 2);
   ("name", VStr "birds");
   ("media_type", VStr "image");
   ("sample_collection_name", VStr "samples.birds");
   ("sample_fields", VList [filepath_field])].

Definition with_birds : db :=
  <["datasets" := [descriptor "video" [v0_7_2.frames; filepath_field]; birds]]> before_up.

(** A sample collection that also holds the first frame of the sample. *)
Definition frames_among_samples : db :=
  store (descriptor "video" [filepath_field]) [sample; frame 101 1].

(** The same, with a second first-frame document that names no sample. *)
Definition orphan_frame : db :=
  store (descriptor "video" [filepath_field])
    [sample; frame 101 1; [("_id", VOid 104); ("frame_number", VInt 1)]].

(** An instance for [aggregate]: a pipeline that is not a list is
    refused with [TypeError], as pymongo 3 does; a list of stages is
    answered with the documents of the collection, unprocessed. *)
Definition strict_aggregate (c : string) (pipeline : value) (s : db) : result (list value) :=
  match pipeline with
  | VList _ => Ok (map VDict (docs c s))
  | _ => Raise TypeError
  end.

End Flowers.

(** ** Vocabulary of the statements *)

Import v0_7_2.

(** The catalog entry [find_one({"name": dataset_name})] returns. *)
Definition descriptor_of (dataset_name : string) (s : db) : option doc :=
  find_first (matches [("name", VStr dataset_name)]) (docs "datasets" s).

(** A field descriptor that carries a ["name"]. *)
Definition has_name (field : value) : bool :=
  match getitem field "name" with
  | Ok _ => true
  | Raise _ => false
  end.

(** A field descriptor named ["frames"]. *)
Definition named_frames (field : value) : bool :=
  match getitem field "name" with
  | Ok name => eq_str name "frames"
  | Raise _ => false
  end.

(** The fields the loop of [up] keeps. *)
Definition keep_field (f : value) : bool := negb (named_frames f).

(** The catalog entry after [up]: the ["frames"] descriptors are gone. *)
Definition without_frames_field (d : doc) (fs : list value) : doc :=
  dict_set "sample_fields" (VList (List.filter keep_field fs)) d.

(** The filter of the first-frame query of [down]. *)
Definition first_frame_query : doc := [("frame_number", VInt 1)].

(** The request the loop of [down] builds for the document [f]: none
    when [f] has no ["_sample_id"]. *)
Definition request_for (f : doc) : list update_one :=
  match dict_get "_sample_id" f with
  | Some sample_id =>
      [UpdateOne [("_id", sample_id)] [("frames", VDict [("first_frame", VDict f)])]]
  | None => []
  end.

Definition has_sample_id (f : doc) : bool :=
  match dict_get "_sample_id" f with Some _ => true | None => false end.

(** A request that sets the ["frames"] key and nothing else. *)
Definition sets_frames_only (w : update_one) : Prop :=
  exists v, uo_set w = [("frames", v)].

(** A collection with the ["frames"] key of every document put aside. *)
Definition apart_from_frames (l : list doc) : list doc := map (dict_del "frames") l.

(** A document without its ["frames"] entry, every other entry kept in
    place. *)
Definition strip_frames (x : doc) : doc :=
  List.filter (fun kv => negb (String.eqb (fst kv) "frames")) x.

(** A value that is an object id. *)
Definition is_oid (v : option value) : bool :=
  match v with Some (VOid _) => true | _ => false end.

(** The document [f] refers to the sample with object id [n]. *)
Definition names_sample (n : N) (f : doc) : bool :=
  match dict_get "_sample_id" f with
  | Some (VOid m) => N.eqb m n
  | _ => false
  end.

(** Among the documents of the cursor, the last one that refers to the
    sample with object id [n]. *)
Definition last_frame_for (n : N) (first_frames : list doc) : option doc :=
  List.find (names_sample n) (rev first_frames).

(** How a sample [x] relates to what it has become, [x'], once the
    requests built from [first_frames] are applied: if some document of
    the cursor refers to it, its ["frames"] reads as the subdocument
    holding the last such document, and nothing else has changed;
    otherwise it is untouched. *)
Definition frames_set_from (first_frames : list doc) (x x' : doc) : Prop :=
  match dict_get "_id" x with
  | Some (VOid n) =>
      match last_frame_for n first_frames with
      | Some f =>
          dict_get "frames" x' = Some (VDict [("first_frame", VDict f)]) /\
          (forall k, k <> "frames" -> dict_get k x' = dict_get k x)
      | None => x' = x
      end
  | _ => x' = x
  end.

(** ** Dictionaries *)

Lemma dict_get_set_eq k v d : dict_get k (dict_set k v d) = Some v.
Proof.
  induction d as [|[k' v'] d IH]; simpl.
  - now rewrite String.eqb_refl.
  - destruct (String.eqb k k') eqn:E; simpl; rewrite E; auto.
Qed.

Lemma dict_get_set_ne k k' v d : k <> k' -> dict_get k (dict_set k' v d) = dict_get k d.
Proof.
  intros Hne. induction d as [|[k0 v0] d IH]; simpl.
  - apply String.eqb_neq in Hne. now rewrite Hne.
  - destruct (String.eqb k' k0) eqn:E; simpl.
    + apply String.eqb_eq in E. subst k0.
      apply String.eqb_neq in Hne. now rewrite Hne.
    + now rewrite IH.
Qed.

Lemma dict_set_same k v d : dict_get k d = Some v -> dict_set k v d = d.
Proof.
  induction d as [|[k' v'] d IH]; simpl; [discriminate|].
  destruct (String.eqb k k') eqn:E.
  - intros [= ->]. reflexivity.
  - intros H. now rewrite IH.
Qed.

Lemma dict_get_del_eq k d : dict_get k (dict_del k d) = None.
Proof.
  induction d as [|[k' v'] d IH]; simpl; [reflexivity|].
  destruct (String.eqb k k') eqn:E; simpl; [assumption|]. now rewrite E.
Qed.

Lemma dict_get_del_ne k k' d : k <> k' -> dict_get k (dict_del k' d) = dict_get k d.
Proof.
  intros Hne. induction d as [|[k0 v0] d IH]; simpl; [reflexivity|].
  destruct (String.eqb k' k0) eqn:E; simpl.
  - apply String.eqb_eq in E. subst k0.
    apply String.eqb_neq in Hne. now rewrite Hne.
  - now rewrite IH.
Qed.

Lemma dict_del_absent k d : dict_get k d = None -> dict_del k d = d.
Proof.
  induction d as [|[k' v'] d IH]; simpl; [reflexivity|].
  destruct (String.eqb k k') eqn:E; [discriminate|].
  intros H. now rewrite IH.
Qed.

(** ** Filters, first match, update of the first match *)

Lemma matches_name_ext q d d' :
  dict_get "name" d' = dict_get "name" d ->
  matches [("name", q)] d' = matches [("name", q)] d.
Proof. intros H. unfold matches, field_matches. simpl. now rewrite H. Qed.

Lemma find_first_true p l d : find_first p l = Some d -> p d = true.
Proof.
  induction l as [|x l IH]; simpl; [discriminate|].
  destruct (p x) eqn:E; [intros [= <-]; exact E | exact IH].
Qed.

Lemma update_first_same p l d :
  find_first p l = Some d -> update_first p (fun _ => d) l = l.
Proof.
  induction l as [|x l IH]; simpl; [discriminate|].
  destruct (p x); [intros [= <-]; reflexivity | intros H; now rewrite IH].
Qed.

Lemma find_first_update p l d d' :
  find_first p l = Some d -> p d' = true ->
  find_first p (update_first p (fun _ => d') l) = Some d'.
Proof.
  intros H Hp. induction l as [|x l IH]; simpl in *; [discriminate|].
  destruct (p x) eqn:E; simpl.
  - now rewrite Hp.
  - rewrite E. auto.
Qed.

Lemma find_first_map p f l :
  (forall x, p (f x) = p x) ->
  find_first p (map f l) = option_map f (find_first p l).
Proof.
  intros Hp. induction l as [|x l IH]; simpl; [reflexivity|].
  rewrite Hp. destruct (p x); [reflexivity | exact IH].
Qed.

(** ** Collections of a database *)

Lemma docs_alter_eq (f : list doc -> list doc) c (s : db) :
  f [] = [] -> docs c (alter f c s) = f (docs c s).
Proof.
  intros Hf. unfold docs. rewrite lookup_alter_eq.
  destruct (s !! c); simpl; auto.
Qed.

Lemma docs_alter_ne (f : list doc -> list doc) c c' (s : db) :
  c <> c' -> docs c' (alter f c s) = docs c' s.
Proof. intros Hne. unfold docs. now rewrite lookup_alter_ne. Qed.

Lemma alter_fixed (f : list doc -> list doc) c (s : db) :
  f (docs c s) = docs c s -> alter f c s = s.
Proof.
  intros Hf. apply map_eq. intros i.
  destruct (decide (c = i)) as [<-|Hne].
  - rewrite lookup_alter_eq. unfold docs in Hf.
    destruct (s !! c); simpl in *; [now rewrite Hf | reflexivity].
  - now rewrite lookup_alter_ne.
Qed.

Lemma map_fixed {A} (f : A -> A) (l : list A) :
  (forall x, In x l -> f x = x) -> map f l = l.
Proof.
  induction l as [|x l IH]; simpl; intros H; [reflexivity|].
  rewrite H by now left. rewrite IH; auto.
Qed.

(** ** The forward transform *)

Lemma up_fields_filter items acc :
  forallb has_name items = true ->
  up_fields items acc = Ok (acc ++ List.filter keep_field items).
Proof.
  revert acc. induction items as [|f items IH]; intros acc H; simpl in *.
  - now rewrite app_nil_r.
  - apply andb_prop in H as [Hf Hrest].
    unfold keep_field, named_frames, has_name in *.
    destruct (getitem f "name") as [n|e]; [|discriminate]. simpl.
    destruct (eq_str n "frames"); simpl.
    + now apply IH.
    + rewrite IH by assumption. now rewrite <- app_assoc.
Qed.

Lemma up_fields_ok_inv items acc r :
  up_fields items acc = Ok r -> forallb has_name items = true.
Proof.
  revert acc. induction items as [|f items IH]; intros acc H; simpl in *; [reflexivity|].
  unfold has_name at 1.
  destruct (getitem f "name") as [n|e]; simpl in *; [|discriminate].
  destruct (eq_str n "frames"); eauto.
Qed.

Lemma filter_keep_twice items :
  List.filter keep_field (List.filter keep_field items) = List.filter keep_field items.
Proof.
  induction items as [|f items IH]; simpl; [reflexivity|].
  destruct (keep_field f) eqn:E; simpl; [rewrite E; now f_equal | exact IH].
Qed.

Lemma filter_keep_has_name items :
  forallb has_name items = true ->
  forallb has_name (List.filter keep_field items) = true.
Proof.
  induction items as [|f items IH]; simpl; [reflexivity|].
  intros H. apply andb_prop in H as [Hf Hrest].
  destruct (keep_field f); simpl; [rewrite Hf|]; auto.
Qed.

Lemma eq_str_true v s : eq_str v s = true -> v = VStr s.
Proof.
  destruct v; simpl; try discriminate.
  intros H. apply String.eqb_eq in H. now subst.
Qed.

(** What [up] does to a video dataset whose catalog entry is well formed. *)
Lemma up_video name s d sf items c :
  descriptor_of name s = Some d ->
  dict_get "media_type" d = Some (VStr "video") ->
  dict_get "sample_fields" d = Some sf ->
  iter sf = Ok items ->
  forallb has_name items = true ->
  dict_get "sample_collection_name" d = Some (VStr c) ->
  collection_name_ok c = true ->
  up name s =
    (alter (map (dict_del "frames")) c
       (alter (update_first (matches [("name", VStr name)])
                 (fun _ => without_frames_field d items)) "datasets" s),
     Ok tt).
Proof.
  intros Hd Hm Hsf Hit Hn Hc Hok.
  unfold descriptor_of in Hd.
  unfold up, bind, find_one, lift, ret. rewrite Hd.
  unfold getitem at 1. rewrite Hm. cbn [eq_str negb String.eqb Ascii.eqb Bool.eqb].
  unfold getitem at 1. rewrite Hsf, Hit.
  rewrite (up_fields_filter items []) by assumption.
  cbn [app setitem replace_one modify].
  unfold getitem. rewrite dict_get_set_ne by discriminate. rewrite Hc.
  cbn [collection]. rewrite Hok.
  reflexivity.
Qed.

(** What [up] does to a dataset that is not a video dataset. *)
Lemma up_not_video name s d m :
  descriptor_of name s = Some d ->
  dict_get "media_type" d = Some m ->
  eq_str m "video" = false ->
  up name s = (s, Ok tt).
Proof.
  intros Hd Hm Hv. unfold descriptor_of in Hd.
  unfold up, bind, find_one, lift, ret. rewrite Hd.
  unfold getitem at 1. rewrite Hm, Hv. reflexivity.
Qed.

(** The two ways [up] can complete. *)
Lemma up_ok_inv name s s1 :
  up name s = (s1, Ok tt) ->
  (exists d m,
      descriptor_of name s = Some d /\ dict_get "media_type" d = Some m /\
      eq_str m "video" = false /\ s1 = s)
  \/
  (exists d sf items c,
      descriptor_of name s = Some d /\
      dict_get "media_type" d = Some (VStr "video") /\
      dict_get "sample_fields" d = Some sf /\
      iter sf = Ok items /\
      forallb has_name items = true /\
      dict_get "sample_collection_name" d = Some (VStr c) /\
      collection_name_ok c = true).
Proof.
  unfold up, bind, find_one, lift, ret, descriptor_of.
  destruct (find_first _ (docs "datasets" s)) as [d|] eqn:Hd; [|discriminate].
  unfold getitem at 1.
  destruct (dict_get "media_type" d) as [m|] eqn:Hm; [|discriminate].
  destruct (eq_str m "video") eqn:Hv; cbn [negb].
  - apply eq_str_true in Hv. subst m.
    unfold getitem at 1.
    destruct (dict_get "sample_fields" d) as [sf|] eqn:Hsf; [|discriminate].
    destruct (iter sf) as [items|] eqn:Hit; [|discriminate].
    destruct (up_fields items []) as [fields|] eqn:Hf; [|discriminate].
    cbn [setitem replace_one modify].
    unfold getitem. rewrite dict_get_set_ne by discriminate.
    destruct (dict_get "sample_collection_name" d) as [nm|] eqn:Hc; [|discriminate].
    destruct nm; cbn [collection]; try discriminate.
    destruct (collection_name_ok s0) eqn:Hok; [|discriminate].
    intros _. right. exists d, sf, items, s0.
    repeat split; auto. eapply up_fields_ok_inv; eauto.
  - intros [= <-]. left. exists d, m. auto.
Qed.

Lemma unset_twice k (l : list doc) :
  map (dict_del k) (map (dict_del k) l) = map (dict_del k) l.
Proof.
  apply map_fixed. intros x Hx.
  apply in_map_iff in Hx as (y & <- & _).
  apply dict_del_absent, dict_get_del_eq.
Qed.

Lemma unset_keeps_filter q k (x : doc) :
  k <> "name" -> matches [("name", q)] (dict_del k x) = matches [("name", q)] x.
Proof. intros Hk. apply matches_name_ext. apply dict_get_del_ne. congruence. Qed.

(** The catalog entry after the [replace_one] of [up]. *)
Lemma descriptor_after_replace name s d d' :
  descriptor_of name s = Some d ->
  dict_get "name" d' = dict_get "name" d ->
  descriptor_of name
    (alter (update_first (matches [("name", VStr name)]) (fun _ => d')) "datasets" s)
  = Some d'.
Proof.
  intros Hd Hn. unfold descriptor_of in *.
  rewrite docs_alter_eq by reflexivity.
  apply find_first_update with (d := d); [assumption|].
  rewrite (matches_name_ext _ _ _ Hn). eapply find_first_true; eassumption.
Qed.


Lemma dict_del_filter k0 d :
  dict_del k0 d = List.filter (fun kv => negb (String.eqb (fst kv) k0)) d.
Proof.
  induction d as [|[k v] d IH]; simpl; [reflexivity|].
  rewrite (String.eqb_sym k k0).
  destruct (String.eqb k0 k); simpl; [exact IH | now f_equal].
Qed.

Lemma dict_del_strip d : dict_del "frames" d = strip_frames d.
Proof. apply dict_del_filter. Qed.



(** C6. [up] is idempotent: once [up] has completed on a dataset, a
    second run completes too and leaves the whole database as the first
    run left it. *)
Theorem up_idempotent name s s1 :
  up name s = (s1, Ok tt) -> up name s1 = (s1, Ok tt).
Proof.
  intros H.
  destruct (up_ok_inv _ _ _ H)
    as [(d & m & Hd & Hm & Hv & ->)
       | (d & sf & items & c & Hd & Hm & Hsf & Hit & Hn & Hc & Hok)];
    [exact H|].
  rewrite (up_video _ _ _ _ _ _ Hd Hm Hsf Hit Hn Hc Hok) in H.
  injection H as <-.
  set (p := matches [("name", VStr name)]).
  set (fields := List.filter keep_field items).
  set (d' := without_frames_field d items).
  set (s0 := alter (update_first p (fun _ => d')) "datasets" s).
  assert (Hd0 : descriptor_of name s0 = Some d').
  { apply descriptor_after_replace with (d := d); [assumption|].
    apply dict_get_set_ne. discriminate. }
  set (d1 := if decide (c = "datasets") then dict_del "frames" d' else d').
  assert (Hget : forall k, k <> "frames" -> k <> "sample_fields" ->
                           dict_get k d1 = dict_get k d).
  { intros k Hk1 Hk2. unfold d1. destruct (decide (c = "datasets")).
    - rewrite dict_get_del_ne by assumption. now apply dict_get_set_ne.
    - now apply dict_get_set_ne. }
  assert (Hsf1 : dict_get "sample_fields" d1 = Some (VList fields)).
  { unfold d1. destruct (decide (c = "datasets")).
    - rewrite dict_get_del_ne by discriminate. apply dict_get_set_eq.
    - apply dict_get_set_eq. }
  assert (Hd1 : descriptor_of name
                  (alter (map (dict_del "frames")) c s0) = Some d1).
  { unfold descriptor_of, d1. destruct (decide (c = "datasets")) as [->|Hne].
    - rewrite docs_alter_eq by reflexivity.
      rewrite find_first_map by (intros x; apply unset_keeps_filter; discriminate).
      unfold descriptor_of in Hd0. now rewrite Hd0.
    - rewrite docs_alter_ne by assumption. exact Hd0. }
  rewrite (up_video name _ d1 (VList fields) fields c); auto.
  - f_equal.
    assert (Hsame : without_frames_field d1 fields = d1).
    { unfold without_frames_field. fold keep_field. unfold fields.
      rewrite filter_keep_twice. now apply dict_set_same. }
    rewrite Hsame.
    rewrite (alter_fixed (update_first _ _) "datasets").
    + apply alter_fixed. rewrite docs_alter_eq by reflexivity. apply unset_twice.
    + apply update_first_same. exact Hd1.
  - rewrite Hget by discriminate. exact Hm.
  - now apply filter_keep_has_name.
  - rewrite Hget by discriminate. exact Hc.
Qed.

(** ** The backward transform *)

Lemma collection_ok_inv nm c : collection nm = Ok c -> nm = VStr c.
Proof.
  destruct nm; simpl; try discriminate.
  destruct (collection_name_ok s); [intros [= ->]; reflexivity | discriminate].
Qed.

(** Symbolic execution of the straight-line prefix shared by the two
    transforms, using the equations at hand for each lookup. *)
Ltac run_prefix :=
  unfold down_then, up, bind, find_one, find, lift, ret, getitem, setitem,
    descriptor_of in *;
  repeat (cbv beta iota; cbn [negb];
          first [ progress rewrite dict_get_set_ne by discriminate
                | match goal with
                  | H : ?x = _ |- context [?x] => rewrite H
                  end ]);
  cbv beta iota.

(** [down] on a video dataset whose catalog entry is well formed: what
    is left to run after the two collection handles are bound. *)
Lemma down_then_video rest name s d fs c :
  descriptor_of name s = Some d ->
  dict_get "media_type" d = Some (VStr "video") ->
  dict_get "sample_fields" d = Some (VList fs) ->
  dict_get "sample_collection_name" d = Some (VStr c) ->
  collection_name_ok c = true ->
  down_then rest name s =
    match down_writes (List.filter (matches first_frame_query) (docs c s)) [] with
    | Ok writes => bind (bulk_write c writes) (fun _ => rest c) s
    | Raise e => (s, Raise e)
    end.
Proof.
  intros Hd Hm Hsf Hc Hok.
  assert (Hcol : collection (VStr c) = Ok c) by (cbn; now rewrite Hok).
  assert (Happ : append (VList fs) frames = Ok (VList (fs ++ [frames])))
    by reflexivity.
  assert (Hv : eq_str (VStr "video") "video" = true) by reflexivity.
  unfold first_frame_query. run_prefix.
  destruct (down_writes _ []); reflexivity.
Qed.

(** Either [down] stops with the database untouched, whatever follows
    the bulk write, or it reaches the bulk write with at least one
    request for the sample collection. *)
Lemma down_then_cases name s :
  (exists r, forall rest, down_then rest name s = (s, r))
  \/
  (exists d c w ws,
      descriptor_of name s = Some d /\
      dict_get "sample_collection_name" d = Some (VStr c) /\
      forall rest,
        down_then rest name s =
          rest c (alter (fun l => fold_left apply_update_one (w :: ws) l) c s)).
Proof.
  destruct (descriptor_of name s) as [d|] eqn:Hd;
    [|left; eexists; intros rest; run_prefix; reflexivity].
  destruct (dict_get "media_type" d) as [m|] eqn:Hm;
    [|left; eexists; intros rest; run_prefix; reflexivity].
  destruct (eq_str m "video") eqn:Hv;
    [|left; eexists; intros rest; run_prefix; reflexivity].
  destruct (dict_get "sample_fields" d) as [sf|] eqn:Hsf;
    [|left; eexists; intros rest; run_prefix; reflexivity].
  destruct (append sf frames) as [sf'|e] eqn:Happ;
    [|left; eexists; intros rest; run_prefix; reflexivity].
  destruct (dict_get "sample_collection_name" d) as [nm|] eqn:Hnm;
    [|left; eexists; intros rest; run_prefix; reflexivity].
  destruct (collection nm) as [c|e] eqn:Hcol;
    [|left; eexists; intros rest; run_prefix; reflexivity].
  destruct (down_writes (List.filter (matches [("frame_number", VInt 1)]) (docs c s)) [])
    as [[|w ws]|e] eqn:Hw.
  - left; eexists; intros rest; run_prefix; reflexivity.
  - right. exists d, c, w, ws.
    apply collection_ok_inv in Hcol as Hnm'. subst nm.
    split; [reflexivity|]. split; [exact Hnm|].
    intros rest. run_prefix. reflexivity.
  - left; eexists; intros rest; run_prefix; reflexivity.
Qed.

Lemma eq_str_false v s : v <> VStr s -> eq_str v s = false.
Proof.
  intros Hne. destruct v; simpl; try reflexivity.
  apply String.eqb_neq. congruence.
Qed.

Lemma pass_loop_state (counts : list value) (m : M unit) s :
  fst (fold_left (fun acc (_ : value) => bind acc (fun _ => ret tt)) counts m s)
  = fst (m s).
Proof.
  revert m. induction counts as [|x counts IH]; intros m; simpl; [reflexivity|].
  rewrite IH. unfold bind, ret. destruct (m s) as [s' [[]|e]]; reflexivity.
Qed.

Section DownFacts.

Variable aggregate : string -> value -> db -> result (list value).

(** Fetching the counts and looping over them leaves the database as it
    was. *)
Lemma frame_counts_state c s : fst (frame_counts aggregate c s) = s.
Proof.
  unfold frame_counts, bind.
  destruct (aggregate c group_stage s) as [counts|e]; [|reflexivity].
  now rewrite pass_loop_state.
Qed.

(** C8. The frame-count aggregation at the end of [down] has no effect
    on the database: whatever [aggregate] returns or raises, [down]
    leaves every collection exactly as [down] without lines 58 to 63
    does. *)
Theorem frame_counts_never_written name s :
  fst (down aggregate name s) = fst (down_without_counts name s).
Proof.
  unfold down, down_without_counts.
  destruct (down_then_cases name s) as [[r Hr] | (d & c & w & ws & _ & _ & Hr)];
    rewrite !Hr; [reflexivity|].
  now rewrite frame_counts_state.
Qed.

(** C5. On a dataset whose [media_type] is not [video], [up] and [down]
    both return normally and leave the whole database unchanged. *)
Theorem not_video_is_noop name s d m :
  descriptor_of name s = Some d ->
  dict_get "media_type" d = Some m ->
  m <> VStr "video" ->
  up name s = (s, Ok tt) /\ down aggregate name s = (s, Ok tt).
Proof.
  intros Hd Hm Hne. apply eq_str_false in Hne.
  split; [eapply up_not_video; eassumption|].
  unfold down. run_prefix. reflexivity.
Qed.

(** C4, on the code: when the first-frame query finds nothing, [down]
    hands [bulk_write] an empty request list, which pymongo rejects:
    [down] ends with [InvalidOperation] instead of returning. *)
Theorem down_empty_bulk_write_raises name s d fs c :
  descriptor_of name s = Some d ->
  dict_get "media_type" d = Some (VStr "video") ->
  dict_get "sample_fields" d = Some (VList fs) ->
  dict_get "sample_collection_name" d = Some (VStr c) ->
  collection_name_ok c = true ->
  List.filter (matches first_frame_query) (docs c s) = [] ->
  down aggregate name s = (s, Raise InvalidOperation).
Proof.
  intros Hd Hm Hsf Hc Hok Hnone. unfold down.
  rewrite (down_then_video _ _ _ _ _ _ Hd Hm Hsf Hc Hok), Hnone.
  reflexivity.
Qed.

(** C7, as the code has it. Let the catalog entry miss one of
    [media_type], [sample_fields] or [sample_collection_name], with
    [media_type] missing or equal to [video]. Then [down] raises with the
    database unchanged; and unless the missing attribute is
    [sample_collection_name], so does [up]. *)
Theorem missing_attribute_raises_before_writes name s d k :
  descriptor_of name s = Some d ->
  dict_get "media_type" d = None \/ dict_get "media_type" d = Some (VStr "video") ->
  In k ["media_type"; "sample_fields"; "sample_collection_name"] ->
  dict_get k d = None ->
  (exists e, down aggregate name s = (s, Raise e)) /\
  (k <> "sample_collection_name" -> exists e, up name s = (s, Raise e)).
Proof.
  intros Hd Hm Hk Hmiss.
  destruct Hm as [Hm|Hm].
  { split; [|intros _]; eexists; unfold down; run_prefix; reflexivity. }
  destruct (dict_get "sample_fields" d) as [sf|] eqn:Hsf.
  2:{ split; [|intros _]; eexists; unfold down; run_prefix; reflexivity. }
  destruct Hk as [<-|[<-|[<-|[]]]]; try congruence.
  split; [|congruence].
  destruct (append sf frames) as [sf'|e] eqn:Happ;
    eexists; unfold down; run_prefix; reflexivity.
Qed.

(** C2, on the code: after [up] and then [down] on a video dataset, the
    catalog entry still has no field descriptor named [frames]: [down]
    appends the descriptor to its local copy and never writes it back. *)
Theorem down_after_up_leaves_frames_field_out name s d fs c :
  descriptor_of name s = Some d ->
  dict_get "media_type" d = Some (VStr "video") ->
  dict_get "sample_fields" d = Some (VList fs) ->
  forallb has_name fs = true ->
  dict_get "sample_collection_name" d = Some (VStr c) ->
  collection_name_ok c = true ->
  c <> "datasets" ->
  exists s1 fields,
    up name s = (s1, Ok tt) /\
    descriptor_of name (fst (down aggregate name s1))
      = Some (dict_set "sample_fields" (VList fields) d) /\
    (forall f, In f fields -> named_frames f = false).
Proof.
  intros Hd Hm Hsf Hn Hc Hok Hne.
  eexists. exists (List.filter keep_field fs).
  split; [eapply up_video; eauto; reflexivity|].
  split.
  2:{ intros f Hf. apply filter_In in Hf as [_ Hf].
      unfold keep_field in Hf. now destruct (named_frames f). }
  match goal with |- descriptor_of _ (fst (down _ _ ?t)) = _ => set (s1 := t) end.
  assert (Hd1 : descriptor_of name s1 = Some (without_frames_field d fs)).
  { unfold descriptor_of at 1, s1. rewrite docs_alter_ne by assumption.
    apply descriptor_after_replace with (d := d); [assumption|].
    apply dict_get_set_ne. discriminate. }
  unfold down.
  destruct (down_then_cases name s1) as [[r Hr] | (d1 & c1 & w & ws & Hd1' & Hc1 & Hr)];
    rewrite Hr; [exact Hd1|].
  rewrite frame_counts_state.
  rewrite Hd1 in Hd1'. injection Hd1' as <-.
  unfold without_frames_field in Hc1.
  rewrite dict_get_set_ne in Hc1 by discriminate.
  rewrite Hc in Hc1. injection Hc1 as <-.
  unfold descriptor_of at 1. rewrite docs_alter_ne by assumption. exact Hd1.
Qed.

End DownFacts.

(** ** The [flowers] dataset *)

(** C1, on the code: [flowers] has three frame documents for its one
    sample, the first with [frame_number] 1, yet after [down] the sample
    has no [frames] key: the first-frame query runs against the sample
    collection, finds nothing there, and the empty bulk write raises. *)
Theorem down_never_reads_frame_collection
    (aggregate : string -> value -> db -> result (list value)) :
  descriptor_of "flowers" Flowers.after_up
    = Some (Flowers.descriptor "video" [Flowers.filepath_field]) /\
  docs "samples.flowers" Flowers.after_up = [Flowers.sample] /\
  In (Flowers.frame 101 1) (docs "frames.samples.flowers" Flowers.after_up) /\
  dict_get "_sample_id" (Flowers.frame 101 1) = dict_get "_id" Flowers.sample /\
  down aggregate "flowers" Flowers.after_up
    = (Flowers.after_up, Raise InvalidOperation) /\
  dict_get "frames" Flowers.sample = None.
Proof.
  repeat split; try (vm_compute; reflexivity).
  vm_compute. left. reflexivity.
Qed.

(** C7, as stated, fails for [up]: with [sample_collection_name]
    missing, [up] raises [KeyError] only after it has replaced the
    catalog entry. *)
Lemma up_writes_then_raises :
  descriptor_of "flowers" Flowers.without_collection
    = Some Flowers.descriptor_without_collection /\
  dict_get "sample_collection_name" Flowers.descriptor_without_collection = None /\
  snd (up "flowers" Flowers.without_collection)
    = Raise (KeyError "sample_collection_name") /\
  descriptor_of "flowers" (fst (up "flowers" Flowers.without_collection))
    <> descriptor_of "flowers" Flowers.without_collection /\
  fst (up "flowers" Flowers.without_collection) <> Flowers.without_collection.
Proof.
  assert (H : descriptor_of "flowers" (fst (up "flowers" Flowers.without_collection))
              <> descriptor_of "flowers" Flowers.without_collection)
    by (vm_compute; discriminate).
  repeat split; try (vm_compute; reflexivity); [exact H|].
  intros E. apply H. now rewrite E.
Qed.



Lemma up_idempotent_witness :
  up "flowers" Flowers.after_up = (Flowers.after_up, Ok tt).
Proof.
  apply (up_idempotent "flowers" Flowers.before_up).
  vm_compute. reflexivity.
Defined.

Lemma not_video_is_noop_witness :
  up "flowers" Flowers.images = (Flowers.images, Ok tt) /\
  down Flowers.strict_aggregate "flowers" Flowers.images = (Flowers.images, Ok tt).
Proof.
  apply (not_video_is_noop Flowers.strict_aggregate "flowers" Flowers.images
           (Flowers.descriptor "image" [Flowers.filepath_field]) (VStr "image"));
    try (vm_compute; reflexivity).
  discriminate.
Defined.

Lemma down_empty_bulk_write_raises_witness :
  down Flowers.strict_aggregate "flowers" Flowers.after_up
    = (Flowers.after_up, Raise InvalidOperation).
Proof.
  apply (down_empty_bulk_write_raises Flowers.strict_aggregate "flowers"
           Flowers.after_up (Flowers.descriptor "video" [Flowers.filepath_field])
           [Flowers.filepath_field] "samples.flowers");
    vm_compute; reflexivity.
Defined.

Lemma missing_attribute_raises_before_writes_witness :
  (exists e, down Flowers.strict_aggregate "flowers" Flowers.untyped
             = (Flowers.untyped, Raise e)) /\
  (exists e, up "flowers" Flowers.untyped = (Flowers.untyped, Raise e)).
Proof.
  destruct (missing_attribute_raises_before_writes Flowers.strict_aggregate
              "flowers" Flowers.untyped
              [("_id", VOid 1); ("name", VStr "flowers")] "media_type")
    as [Hdown Hup].
  - vm_compute. reflexivity.
  - left. vm_compute. reflexivity.
  - simpl. left. reflexivity.
  - vm_compute. reflexivity.
  - split; [exact Hdown | apply Hup; discriminate].
Defined.

Lemma down_after_up_leaves_frames_field_out_witness :
  exists s1 fields,
    up "flowers" Flowers.before_up = (s1, Ok tt) /\
    descriptor_of "flowers" (fst (down Flowers.strict_aggregate "flowers" s1))
      = Some (dict_set "sample_fields" (VList fields)
                (Flowers.descriptor "video" [frames; Flowers.filepath_field])) /\
    (forall f, In f fields -> named_frames f = false).
Proof.
  apply (down_after_up_leaves_frames_field_out Flowers.strict_aggregate
           "flowers" Flowers.before_up
           (Flowers.descriptor "video" [frames; Flowers.filepath_field])
           [frames; Flowers.filepath_field] "samples.flowers");
    try (vm_compute; reflexivity).
  discriminate.
Defined.

(** ** The state controller *)

Section ServerFacts.

Import StateController.

Variables DS IT : Type.
Variable Dataset : value -> result DS.
Variable iter_samples : DS -> result IT.

(** C10. An update whose [dataset_name] is falsy ([None], the empty
    string, ...) changes nothing: the controller keeps its state, no
    dataset is loaded and nothing is emitted. *)
Theorem update_without_dataset_is_noop sender st name (w : server DS IT) :
  getitem st "dataset_name" = Ok name ->
  truthy name = false ->
  on_update Dataset iter_samples sender st w = (w, Ok tt).
Proof.
  intros Hname Hfalsy. unfold on_update. now rewrite Hname, Hfalsy.
Qed.

(** C9, as the code has it. An update whose [dataset_name] is truthy,
    for which the dataset and its sample iterator load, is stored as the
    controller's state, which [get_current_state] then returns, and is
    emitted once, to the connected sessions other than the sender. *)
Theorem update_stored_and_rebroadcast sender st name d i (w : server DS IT) :
  getitem st "dataset_name" = Ok name ->
  truthy name = true ->
  Dataset name = Ok d ->
  iter_samples d = Ok i ->
  exists w' recipients,
    on_update Dataset iter_samples sender st w = (w', Ok tt) /\
    (forall arg, on_get_current_state arg w' = (w', Ok st)) /\
    connected w' = connected w /\
    trace w' = trace w ++ [LoadDataset name; IterSamples; Emit "update" st recipients] /\
    (forall r, In r recipients <-> In r (connected w) /\ r <> sender).
Proof.
  intros Hname Htruthy Hds Hit.
  eexists. eexists.
  split; [unfold on_update; rewrite Hname, Htruthy, Hds, Hit; reflexivity|].
  split; [reflexivity|]. split; [reflexivity|].
  split.
  - cbn. rewrite <- !app_assoc. reflexivity.
  - intros r. cbn. rewrite filter_In.
    destruct (Nat.eqb r sender) eqn:E; simpl.
    + apply Nat.eqb_eq in E. intuition congruence.
    + apply Nat.eqb_neq in E. intuition.
Qed.

End ServerFacts.

(** C9, as stated, fails: session 1 sends an update with an empty
    [dataset_name]; the handler returns normally, nothing is emitted to
    session 2, and [get_current_state] still answers the initial state. *)
Lemma update_with_empty_name_dropped :
  StateController.on_update StateController.always_loads StateController.always_iterates
    1 (StateController.update_for (VStr "")) StateController.two_sessions
  = (StateController.two_sessions, Ok tt) /\
  StateController.trace StateController.two_sessions = [] /\
  snd (StateController.on_get_current_state VNone StateController.two_sessions)
    <> Ok (StateController.update_for (VStr "")).
Proof.
  split; [reflexivity|]. split; [reflexivity|].
  cbn. discriminate.
Qed.

Lemma update_without_dataset_is_noop_witness :
  StateController.on_update StateController.always_loads StateController.always_iterates
    1 (StateController.update_for VNone) StateController.two_sessions
  = (StateController.two_sessions, Ok tt).
Proof.
  apply (update_without_dataset_is_noop unit unit
           StateController.always_loads StateController.always_iterates
           1 (StateController.update_for VNone) VNone StateController.two_sessions);
    reflexivity.
Defined.

Lemma update_stored_and_rebroadcast_witness :
  exists w' recipients,
    StateController.on_update StateController.always_loads StateController.always_iterates
      1 (StateController.update_for (VStr "flowers")) StateController.two_sessions
    = (w', Ok tt) /\
    (forall arg, StateController.on_get_current_state arg w'
                 = (w', Ok (StateController.update_for (VStr "flowers")))) /\
    StateController.connected w' = [1; 2] /\
    StateController.trace w'
      = [] ++ [StateController.LoadDataset (VStr "flowers");
               StateController.IterSamples;
               StateController.Emit "update"
                 (StateController.update_for (VStr "flowers")) recipients] /\
    (forall r, In r recipients <-> In r [1; 2] /\ r <> 1).
Proof.
  apply (update_stored_and_rebroadcast unit unit
           StateController.always_loads StateController.always_iterates
           1 (StateController.update_for (VStr "flowers")) (VStr "flowers") tt tt
           StateController.two_sessions);
    reflexivity.
Defined.

(** ** Further facts about the revision *)

Lemma dict_del_set k v d : dict_del k (dict_set k v d) = dict_del k d.
Proof.
  induction d as [|[k' v'] d IH]; simpl.
  - now rewrite String.eqb_refl.
  - destruct (String.eqb k k') eqn:E; simpl; rewrite E; [reflexivity | now f_equal].
Qed.

Lemma update_first_length p f (l : list doc) :
  length (update_first p f l) = length l.
Proof.
  induction l as [|x l IH]; simpl; [reflexivity|].
  destruct (p x); simpl; [reflexivity | now f_equal].
Qed.

Lemma update_first_apart p f l :
  (forall x, dict_del "frames" (f x) = dict_del "frames" x) ->
  apart_from_frames (update_first p f l) = apart_from_frames l.
Proof.
  intros Hf. induction l as [|x l IH]; simpl; [reflexivity|].
  destruct (p x); simpl; [now rewrite Hf | now f_equal].
Qed.

Lemma bulk_apart ws l :
  Forall sets_frames_only ws ->
  apart_from_frames (fold_left apply_update_one ws l) = apart_from_frames l.
Proof.
  intros Hws. revert l.
  induction Hws as [|w ws [v Hv] _ IH]; intros l; simpl; [reflexivity|].
  rewrite IH. unfold apply_update_one. rewrite Hv.
  apply update_first_apart. intros x. cbn. apply dict_del_set.
Qed.

Lemma bulk_length ws (l : list doc) :
  length (fold_left apply_update_one ws l) = length l.
Proof.
  revert l. induction ws as [|w ws IH]; intros l; simpl; [reflexivity|].
  rewrite IH. apply update_first_length.
Qed.

Lemma bulk_nil ws : fold_left apply_update_one ws [] = [].
Proof. induction ws as [|w ws IH]; simpl; [reflexivity | exact IH]. Qed.

Lemma apart_twice l : apart_from_frames (apart_from_frames l) = apart_from_frames l.
Proof. apply unset_twice. Qed.

(** The loop of [down] as a whole. *)
Lemma down_writes_requests fs acc :
  forallb has_sample_id fs = true ->
  down_writes fs acc = Ok (acc ++ flat_map request_for fs).
Proof.
  revert acc. induction fs as [|f fs IH]; intros acc H; simpl in *.
  - now rewrite app_nil_r.
  - apply andb_prop in H as [Hf Hrest].
    unfold has_sample_id, request_for in *.
    destruct (dict_get "_sample_id" f) as [i|]; [|discriminate]. simpl.
    rewrite IH by assumption. now rewrite <- app_assoc.
Qed.

Lemma down_writes_missing fs acc :
  forallb has_sample_id fs = false ->
  down_writes fs acc = Raise (KeyError "_sample_id").
Proof.
  revert acc. induction fs as [|f fs IH]; intros acc H; simpl in *; [discriminate|].
  unfold has_sample_id in H at 1.
  destruct (dict_get "_sample_id" f) as [i|]; simpl in *; [now apply IH | reflexivity].
Qed.

Lemma down_writes_ok_inv fs acc r :
  down_writes fs acc = Ok r -> forallb has_sample_id fs = true.
Proof.
  intros H. destruct (forallb has_sample_id fs) eqn:E; [reflexivity|].
  rewrite (down_writes_missing _ _ E) in H. discriminate.
Qed.

Lemma requests_set_frames fs : Forall sets_frames_only (flat_map request_for fs).
Proof.
  induction fs as [|f fs IH]; simpl; [constructor|].
  unfold request_for at 1. destruct (dict_get "_sample_id" f); simpl; [|exact IH].
  constructor; [eexists; reflexivity | exact IH].
Qed.

Lemma pass_loop_ok (counts : list value) (m : M unit) s :
  m s = (s, Ok tt) ->
  fold_left (fun acc (_ : value) => bind acc (fun _ => ret tt)) counts m s = (s, Ok tt).
Proof.
  revert m. induction counts as [|x counts IH]; intros m Hm; simpl; [exact Hm|].
  apply IH. unfold bind, ret. now rewrite Hm.
Qed.

Lemma find_first_other p p' l (d d' d2 : doc) :
  find_first p l = Some d ->
  p' d' = p' d ->
  find_first p' l = Some d2 ->
  p d2 = false ->
  find_first p' (update_first p (fun _ => d') l) = Some d2.
Proof.
  intros Hd Hp' Hd2 Hne. induction l as [|x l IH]; simpl in *; [discriminate|].
  destruct (p x) eqn:Ex; simpl.
  - injection Hd as ->. rewrite Hp'.
    destruct (p' d) eqn:E'; [|exact Hd2].
    injection Hd2 as <-. congruence.
  - destruct (p' x); [exact Hd2 | auto].
Qed.

Ltac run_up :=
  unfold up; unfold replace_one, modify, update_many_unset, raise; run_prefix.

(** Where [up] can leave the database: untouched, with the catalog entry
    replaced, or with the sample collection stripped as well. *)
Lemma up_state_cases name s :
  fst (up name s) = s \/
  exists d d',
    descriptor_of name s = Some d /\
    dict_get "name" d' = dict_get "name" d /\
    (fst (up name s)
       = alter (update_first (matches [("name", VStr name)]) (fun _ => d')) "datasets" s
     \/
     exists c,
       dict_get "sample_collection_name" d = Some (VStr c) /\
       fst (up name s)
       = alter (map (dict_del "frames")) c
           (alter (update_first (matches [("name", VStr name)]) (fun _ => d'))
              "datasets" s)).
Proof.
  destruct (descriptor_of name s) as [d|] eqn:Hd; [|left; run_up; reflexivity].
  destruct (dict_get "media_type" d) as [m|] eqn:Hm; [|left; run_up; reflexivity].
  destruct (eq_str m "video") eqn:Hv; [|left; run_up; reflexivity].
  destruct (dict_get "sample_fields" d) as [sf|] eqn:Hsf; [|left; run_up; reflexivity].
  destruct (iter sf) as [items|e] eqn:Hit; [|left; run_up; reflexivity].
  destruct (up_fields items []) as [fields|e] eqn:Hf; [|left; run_up; reflexivity].
  right. exists d, (dict_set "sample_fields" (VList fields) d).
  split; [reflexivity|]. split; [apply dict_get_set_ne; discriminate|].
  destruct (dict_get "sample_collection_name" d) as [nm|] eqn:Hnm;
    [|left; run_up; reflexivity].
  destruct (collection nm) as [c|e] eqn:Hcol; [|left; run_up; reflexivity].
  apply collection_ok_inv in Hcol as Hnm'. subst nm.
  right. exists c. split; [reflexivity|]. run_up. reflexivity.
Qed.

(** The same for [down], with the requests of the bulk write. *)
Lemma down_then_cases_writes name s :
  (exists r, forall rest, down_then rest name s = (s, r))
  \/
  (exists d c w ws,
      descriptor_of name s = Some d /\
      dict_get "sample_collection_name" d = Some (VStr c) /\
      down_writes (List.filter (matches first_frame_query) (docs c s)) [] = Ok (w :: ws) /\
      forall rest,
        down_then rest name s =
          rest c (alter (fun l => fold_left apply_update_one (w :: ws) l) c s)).
Proof.
  destruct (descriptor_of name s) as [d|] eqn:Hd;
    [|left; eexists; intros rest; run_prefix; reflexivity].
  destruct (dict_get "media_type" d) as [m|] eqn:Hm;
    [|left; eexists; intros rest; run_prefix; reflexivity].
  destruct (eq_str m "video") eqn:Hv;
    [|left; eexists; intros rest; run_prefix; reflexivity].
  destruct (dict_get "sample_fields" d) as [sf|] eqn:Hsf;
    [|left; eexists; intros rest; run_prefix; reflexivity].
  destruct (append sf frames) as [sf'|e] eqn:Happ;
    [|left; eexists; intros rest; run_prefix; reflexivity].
  destruct (dict_get "sample_collection_name" d) as [nm|] eqn:Hnm;
    [|left; eexists; intros rest; run_prefix; reflexivity].
  destruct (collection nm) as [c|e] eqn:Hcol;
    [|left; eexists; intros rest; run_prefix; reflexivity].
  destruct (down_writes (List.filter (matches [("frame_number", VInt 1)]) (docs c s)) [])
    as [[|w ws]|e] eqn:Hw.
  - left; eexists; intros rest; run_prefix; reflexivity.
  - right. exists d, c, w, ws.
    apply collection_ok_inv in Hcol as Hnm'. subst nm.
    split; [reflexivity|]. split; [exact Hnm|]. split; [exact Hw|].
    intros rest. run_prefix. reflexivity.
  - left; eexists; intros rest; run_prefix; reflexivity.
Qed.

(** X1. A dataset the catalog does not list: [find_one] answers [None],
    and subscripting it raises [TypeError] in both transforms, with the
    database untouched. *)
Theorem unknown_dataset_raises
    (aggregate : string -> value -> db -> result (list value)) name s :
  descriptor_of name s = None ->
  up name s = (s, Raise TypeError) /\ down aggregate name s = (s, Raise TypeError).
Proof.
  intros Hd. split; [run_up; reflexivity | unfold down; run_prefix; reflexivity].
Qed.

Lemma up_fields_unnamed items acc :
  forallb has_name items = false ->
  up_fields items acc = Raise (KeyError "name") \/ up_fields items acc = Raise TypeError.
Proof.
  revert acc. induction items as [|f items IH]; intros acc H; simpl in *; [discriminate|].
  unfold has_name in H at 1.
  destruct (getitem f "name") as [n|e] eqn:E; simpl in *.
  - destruct (eq_str n "frames"); now apply IH.
  - unfold getitem in E. destruct f; try (injection E as <-; now right).
    destruct (dict_get "name" d); [discriminate|]. injection E as <-. now left.
Qed.

(** X2. A video dataset one of whose field descriptors has no ["name"]
    (or is not a dict): [up] raises [KeyError] (or [TypeError]) while
    filtering, before anything is written. *)
Theorem up_unnamed_field_raises name s d fs :
  descriptor_of name s = Some d ->
  dict_get "media_type" d = Some (VStr "video") ->
  dict_get "sample_fields" d = Some (VList fs) ->
  forallb has_name fs = false ->
  up name s = (s, Raise (KeyError "name")) \/ up name s = (s, Raise TypeError).
Proof.
  intros Hd Hm Hsf Hn.
  assert (Hv : eq_str (VStr "video") "video" = true) by reflexivity.
  assert (Hit : iter (VList fs) = Ok fs) by reflexivity.
  destruct (up_fields_unnamed fs [] Hn) as [Hf|Hf]; [left|right];
    run_up; reflexivity.
Qed.

(** X3. Whatever [up] does and however it ends, it creates and drops no
    collection, the catalog keeps its number of entries, and every other
    collection is either exactly as it was or is the old one, in order,
    with the [frames] entry dropped from each document: [up] never adds
    or overwrites a [frames] key. *)
Theorem up_changes_frames_keys_only name s :
  dom (fst (up name s)) = dom s /\
  length (docs "datasets" (fst (up name s))) = length (docs "datasets" s) /\
  forall c, c <> "datasets" ->
    docs c (fst (up name s)) = docs c s \/
    docs c (fst (up name s)) = map strip_frames (docs c s).
Proof.
  destruct (up_state_cases name s)
    as [-> | (d & d' & _ & _ & [-> | (c0 & _ & ->)])].
  - auto.
  - rewrite dom_alter_L. split; [reflexivity|]. split.
    + rewrite docs_alter_eq by reflexivity. apply update_first_length.
    + intros c Hc. left. now rewrite docs_alter_ne by congruence.
  - rewrite !dom_alter_L. split; [reflexivity|]. split.
    + destruct (decide (c0 = "datasets")) as [->|Hne].
      * rewrite !docs_alter_eq by reflexivity.
        rewrite length_map. apply update_first_length.
      * rewrite docs_alter_ne by assumption.
        rewrite docs_alter_eq by reflexivity. apply update_first_length.
    + intros c Hc. destruct (decide (c0 = c)) as [->|Hne].
      * right. rewrite docs_alter_eq by reflexivity.
        rewrite docs_alter_ne by congruence.
        apply map_ext. intros x. apply dict_del_strip.
      * left. rewrite docs_alter_ne by assumption.
        now rewrite docs_alter_ne by congruence.
Qed.

(** X6. Migrating one dataset leaves the catalog entry of another
    dataset as it is, unless the migrated dataset keeps its samples in
    the catalog collection itself. *)
Theorem up_keeps_other_catalog_entries name name' s d2 :
  descriptor_of name' s = Some d2 ->
  matches [("name", VStr name)] d2 = false ->
  (forall d, descriptor_of name s = Some d ->
             dict_get "sample_collection_name" d <> Some (VStr "datasets")) ->
  descriptor_of name' (fst (up name s)) = Some d2.
Proof.
  intros Hd2 Hother Hcoll.
  destruct (up_state_cases name s)
    as [-> | (d & d' & Hd & Hn & Hcase)]; [exact Hd2|].
  assert (Hrepl : descriptor_of name'
            (alter (update_first (matches [("name", VStr name)]) (fun _ => d'))
               "datasets" s) = Some d2).
  { unfold descriptor_of in *. rewrite docs_alter_eq by reflexivity.
    apply find_first_other with (d := d); auto.
    now apply matches_name_ext. }
  destruct Hcase as [-> | (c & Hc & ->)]; [exact Hrepl|].
  unfold descriptor_of at 1. rewrite docs_alter_ne; [exact Hrepl|].
  intros ->. now apply (Hcoll d).
Qed.

(** X14. A well-formed video dataset that has no field descriptor named
    [frames] and no sample document with a [frames] key: [up] completes
    and returns the database exactly as it found it. *)
Theorem up_without_frames_changes_nothing name s d fs c :
  descriptor_of name s = Some d ->
  dict_get "media_type" d = Some (VStr "video") ->
  dict_get "sample_fields" d = Some (VList fs) ->
  forallb has_name fs = true ->
  forallb keep_field fs = true ->
  dict_get "sample_collection_name" d = Some (VStr c) ->
  collection_name_ok c = true ->
  (forall x, In x (docs c s) -> dict_get "frames" x = None) ->
  up name s = (s, Ok tt).
Proof.
  intros Hd Hm Hsf Hn Hkeep Hc Hok Hnone.
  rewrite (up_video name s d (VList fs) fs c) by auto.
  assert (Hsame : without_frames_field d fs = d).
  { unfold without_frames_field.
    rewrite (forallb_filter_id keep_field fs) by assumption.
    now apply dict_set_same. }
  rewrite Hsame.
  rewrite (alter_fixed (update_first _ _) "datasets")
    by (apply update_first_same; exact Hd).
  f_equal. apply alter_fixed. apply map_fixed.
  intros x Hx. apply dict_del_absent. auto.
Qed.

(** Object ids as filter values. *)
Lemma oid_matches n m (x : doc) :
  dict_get "_id" x = Some (VOid m) ->
  matches [("_id", VOid n)] x = N.eqb m n.
Proof.
  intros H. unfold matches, field_matches. cbn [forallb fst snd].
  rewrite H. cbn [value_eqb]. now rewrite orb_false_r, andb_true_r.
Qed.

Lemma update_first_unique (key : doc -> option value) p g (l : list doc) k0 :
  List.NoDup (map key l) ->
  (forall y, In y l -> p y = true -> key y = k0) ->
  update_first p g l = map (fun y => if p y then g y else y) l.
Proof.
  induction l as [|x l IH]; intros Hnd Hp; simpl; [reflexivity|].
  inversion Hnd as [|? ? Hnotin Hnd']; subst.
  destruct (p x) eqn:Ex.
  - f_equal. symmetry. apply map_fixed. intros z Hz.
    destruct (p z) eqn:Ez; [|reflexivity].
    exfalso. apply Hnotin.
    rewrite (Hp x (or_introl eq_refl) Ex), <- (Hp z (or_intror Hz) Ez).
    now apply in_map.
  - f_equal. apply IH; [assumption|]. intros y Hy. apply Hp. now right.
Qed.

Lemma frames_set_from_other ffs x x' :
  frames_set_from ffs x x' ->
  forall k, k <> "frames" -> dict_get k x' = dict_get k x.
Proof.
  unfold frames_set_from. intros H k Hk.
  destruct (dict_get "_id" x) as [[]|]; try (now subst).
  destruct (last_frame_for n ffs); [now apply H | now subst].
Qed.

Lemma frames_set_from_nil l : Forall2 (frames_set_from []) l l.
Proof.
  induction l as [|x l IH]; constructor; [|exact IH].
  unfold frames_set_from. destruct (dict_get "_id" x) as [[]|]; reflexivity.
Qed.

Lemma last_frame_for_snoc m pre f :
  last_frame_for m (pre ++ [f])
  = if names_sample m f then Some f else last_frame_for m pre.
Proof. unfold last_frame_for. rewrite rev_app_distr. reflexivity. Qed.

(** One more request, built from [f], applied on top of those built from
    [pre]. *)
Lemma frames_set_from_step pre f n l l1 :
  dict_get "_sample_id" f = Some (VOid n) ->
  forallb (fun x => is_oid (dict_get "_id" x)) l = true ->
  Forall2 (frames_set_from pre) l l1 ->
  Forall2 (frames_set_from (pre ++ [f])) l
    (map (fun y => if matches [("_id", VOid n)] y
                   then set_fields [("frames", VDict [("first_frame", VDict f)])] y
                   else y) l1).
Proof.
  intros Hf Hoid H. induction H as [|x x1 l l1 Hx _ IH]; cbn [map]; [constructor|].
  cbn [forallb] in Hoid. apply andb_prop in Hoid as [Hxo Hlo].
  constructor; [|now apply IH].
  pose proof (frames_set_from_other _ _ _ Hx) as Hother.
  unfold frames_set_from in *.
  destruct (dict_get "_id" x) as [[| | | |m| |]|] eqn:Hid; try discriminate.
  rewrite (oid_matches n m x1) by (rewrite Hother by discriminate; exact Hid).
  rewrite last_frame_for_snoc. unfold names_sample. rewrite Hf.
  rewrite (N.eqb_sym n m).
  destruct (N.eqb m n); [|exact Hx].
  cbn [set_fields fold_left fst snd]. split; [apply dict_get_set_eq|].
  intros k Hk. rewrite dict_get_set_ne by assumption. now apply Hother.
Qed.

Lemma frames_set_from_ids ffs l l1 :
  Forall2 (frames_set_from ffs) l l1 ->
  map (dict_get "_id") l1 = map (dict_get "_id") l.
Proof.
  induction 1 as [|x x1 l l1 Hx _ IH]; simpl; [reflexivity|].
  rewrite IH. f_equal. apply (frames_set_from_other _ _ _ Hx). discriminate.
Qed.

(** The bulk write of [down] over samples with distinct object ids. *)
Lemma bulk_sets_frames ffs l :
  forallb (fun f => is_oid (dict_get "_sample_id" f)) ffs = true ->
  forallb (fun x => is_oid (dict_get "_id" x)) l = true ->
  List.NoDup (map (dict_get "_id") l) ->
  Forall2 (frames_set_from ffs) l
    (fold_left apply_update_one (flat_map request_for ffs) l).
Proof.
  intros Hffs Hl Hnd. induction ffs as [|f pre IH] using rev_ind.
  - apply frames_set_from_nil.
  - rewrite forallb_app in Hffs. apply andb_prop in Hffs as [Hpre Hf].
    cbn [forallb] in Hf. rewrite andb_true_r in Hf.
    specialize (IH Hpre).
    destruct (dict_get "_sample_id" f) as [[| | | |n| |]|] eqn:Hsid; try discriminate.
    rewrite flat_map_app, fold_left_app.
    pose proof (frames_set_from_ids _ _ _ IH) as Hids.
    set (l1 := fold_left apply_update_one (flat_map request_for pre) l) in *.
    cbn [flat_map]. unfold request_for. rewrite Hsid.
    cbn [app fold_left]. unfold apply_update_one. cbn [uo_filter uo_set].
    rewrite (update_first_unique (dict_get "_id") _ _ _ (Some (VOid n))).
    + now apply frames_set_from_step.
    + now rewrite Hids.
    + intros y Hy Hp.
      assert (Hyo : is_oid (dict_get "_id" y) = true).
      { apply (in_map (dict_get "_id")) in Hy. rewrite Hids in Hy.
        apply in_map_iff in Hy as (x & <- & Hx).
        rewrite forallb_forall in Hl. now apply Hl. }
      destruct (dict_get "_id" y) as [[| | | |m| |]|] eqn:Hid; try discriminate.
      rewrite (oid_matches n m y Hid) in Hp. apply N.eqb_eq in Hp. now subst.
Qed.

Section DownFurther.

Variable aggregate : string -> value -> db -> result (list value).

(** Where [down] can leave the database: untouched, or with requests
    that set only [frames] applied to the sample collection. *)
Lemma down_state_cases name s :
  fst (down aggregate name s) = s \/
  exists d c ws,
    descriptor_of name s = Some d /\
    dict_get "sample_collection_name" d = Some (VStr c) /\
    Forall sets_frames_only ws /\
    fst (down aggregate name s)
      = alter (fun l => fold_left apply_update_one ws l) c s.
Proof.
  unfold down.
  destruct (down_then_cases_writes name s)
    as [[r Hr] | (d & c & w & ws & Hd & Hc & Hw & Hr)]; rewrite Hr; [now left|].
  right. exists d, c, (w :: ws). repeat split; auto.
  - rewrite (down_writes_requests _ [] (down_writes_ok_inv _ _ _ Hw)) in Hw.
    injection Hw as Hw. rewrite <- Hw. apply requests_set_frames.
  - apply frame_counts_state.
Qed.

(** X4. Whatever [down] does and however it ends, it creates and drops
    no collection, and in every collection the documents are the old
    ones, in order, changed at most in their [frames] key. *)
Theorem down_changes_frames_keys_only name s :
  dom (fst (down aggregate name s)) = dom s /\
  forall c,
    apart_from_frames (docs c (fst (down aggregate name s)))
    = apart_from_frames (docs c s).
Proof.
  destruct (down_state_cases name s) as [-> | (d & c0 & ws & _ & _ & Hws & ->)];
    [auto|].
  rewrite dom_alter_L. split; [reflexivity|].
  intros c. destruct (decide (c0 = c)) as [->|Hne].
  - rewrite docs_alter_eq by apply bulk_nil. now apply bulk_apart.
  - now rewrite docs_alter_ne.
Qed.

(** X5. [down] writes to no collection but the one named by the catalog
    entry's [sample_collection_name]: the frame collection, the catalog
    and every other collection are left exactly as they were. *)
Theorem down_writes_sample_collection_only name s c' :
  (forall d, descriptor_of name s = Some d ->
             dict_get "sample_collection_name" d <> Some (VStr c')) ->
  fst (down aggregate name s) !! c' = s !! c'.
Proof.
  intros Hother.
  destruct (down_state_cases name s) as [-> | (d & c & ws & Hd & Hc & _ & ->)];
    [reflexivity|].
  apply lookup_alter_ne. intros ->. now apply (Hother d).
Qed.

(** X7. If one of the documents matched by the first-frame query has no
    [_sample_id], [down] raises [KeyError] while building its requests:
    nothing is written, not even for the documents before it. *)
Theorem down_missing_sample_id_writes_nothing name s d fs c f :
  descriptor_of name s = Some d ->
  dict_get "media_type" d = Some (VStr "video") ->
  dict_get "sample_fields" d = Some (VList fs) ->
  dict_get "sample_collection_name" d = Some (VStr c) ->
  collection_name_ok c = true ->
  In f (List.filter (matches first_frame_query) (docs c s)) ->
  dict_get "_sample_id" f = None ->
  down aggregate name s = (s, Raise (KeyError "_sample_id")).
Proof.
  intros Hd Hm Hsf Hc Hok Hin Hmiss. unfold down.
  rewrite (down_then_video _ _ _ _ _ _ Hd Hm Hsf Hc Hok).
  rewrite down_writes_missing; [reflexivity|].
  apply not_true_is_false. intros Hall.
  rewrite forallb_forall in Hall. specialize (Hall f Hin).
  unfold has_sample_id in Hall. now rewrite Hmiss in Hall.
Qed.

(** [down] past its loop: the requests are applied to the sample
    collection, then the counts are fetched. *)
Lemma down_applies_requests name s d fs c :
  descriptor_of name s = Some d ->
  dict_get "media_type" d = Some (VStr "video") ->
  dict_get "sample_fields" d = Some (VList fs) ->
  dict_get "sample_collection_name" d = Some (VStr c) ->
  collection_name_ok c = true ->
  List.filter (matches first_frame_query) (docs c s) <> [] ->
  forallb has_sample_id (List.filter (matches first_frame_query) (docs c s)) = true ->
  exists s',
    s' = alter (fun l => fold_left apply_update_one
                           (flat_map request_for
                              (List.filter (matches first_frame_query) (docs c s))) l)
           c s /\
    down aggregate name s
    = (s', match aggregate c group_stage s' with
           | Ok _ => Ok tt
           | Raise e => Raise e
           end).
Proof.
  intros Hd Hm Hsf Hc Hok Hne Hall. eexists. split; [reflexivity|].
  unfold down.
  rewrite (down_then_video _ _ _ _ _ _ Hd Hm Hsf Hc Hok).
  rewrite (down_writes_requests _ [] Hall). cbn [app].
  destruct (List.filter (matches first_frame_query) (docs c s)) as [|f first] eqn:E;
    [congruence|].
  cbn [forallb] in Hall. apply andb_prop in Hall as [Hf _].
  assert (Hreq : exists w, request_for f = [w]).
  { unfold request_for, has_sample_id in *.
    destruct (dict_get "_sample_id" f); [eexists; reflexivity | discriminate]. }
  destruct Hreq as [w Hreq]. cbn [flat_map]. rewrite !Hreq.
  cbn [app]. unfold bind at 1, bulk_write, modify.
  unfold frame_counts, bind.
  match goal with |- context [aggregate c group_stage ?t] =>
    destruct (aggregate c group_stage t) as [counts|e] end;
    [|reflexivity].
  now rewrite pass_loop_ok.
Qed.

(** X8. Take a well-formed video dataset whose samples carry distinct
    object ids, and let the first-frame query find documents that each
    refer to a sample by object id. Then [down] leaves every sample that
    no such document refers to untouched; a sample that one refers to
    reads [frames] as the subdocument holding the last such document of
    the cursor, with nothing else changed; no other collection is
    written; and [down] ends as the [aggregate] call ends, an exception
    raised there surfacing with the writes already applied. *)
Theorem down_bulk_write_then_counts name s d fs c :
  descriptor_of name s = Some d ->
  dict_get "media_type" d = Some (VStr "video") ->
  dict_get "sample_fields" d = Some (VList fs) ->
  dict_get "sample_collection_name" d = Some (VStr c) ->
  collection_name_ok c = true ->
  List.filter (matches first_frame_query) (docs c s) <> [] ->
  forallb (fun f => is_oid (dict_get "_sample_id" f))
    (List.filter (matches first_frame_query) (docs c s)) = true ->
  forallb (fun x => is_oid (dict_get "_id" x)) (docs c s) = true ->
  List.NoDup (map (dict_get "_id") (docs c s)) ->
  exists s',
    down aggregate name s
    = (s', match aggregate c group_stage s' with
           | Ok _ => Ok tt
           | Raise e => Raise e
           end) /\
    Forall2 (frames_set_from (List.filter (matches first_frame_query) (docs c s)))
      (docs c s) (docs c s') /\
    (forall c', c' <> c -> s' !! c' = s !! c').
Proof.
  intros Hd Hm Hsf Hc Hok Hne Hffs Hl Hnd.
  assert (Hall : forallb has_sample_id
                   (List.filter (matches first_frame_query) (docs c s)) = true).
  { rewrite forallb_forall in *. intros f Hf. specialize (Hffs f Hf).
    unfold has_sample_id, is_oid in *.
    now destruct (dict_get "_sample_id" f). }
  destruct (down_applies_requests name s d fs c Hd Hm Hsf Hc Hok Hne Hall)
    as (s' & -> & Hdown).
  eexists. split; [exact Hdown|]. split.
  - rewrite docs_alter_eq by apply bulk_nil. now apply bulk_sets_frames.
  - intros c' Hc'. now rewrite lookup_alter_ne by congruence.
Qed.

(** X9. [up] absorbs a preceding [down]: on a well-formed video dataset,
    running [down] and then [up] completes and gives the very database
    that [up] alone gives. *)
Theorem up_after_down_is_up name s d fs c :
  descriptor_of name s = Some d ->
  dict_get "media_type" d = Some (VStr "video") ->
  dict_get "sample_fields" d = Some (VList fs) ->
  forallb has_name fs = true ->
  dict_get "sample_collection_name" d = Some (VStr c) ->
  collection_name_ok c = true ->
  c <> "datasets" ->
  up name (fst (down aggregate name s)) = up name s /\
  snd (up name s) = Ok tt.
Proof.
  intros Hd Hm Hsf Hn Hc Hok Hne.
  rewrite (up_video name s d (VList fs) fs c) by auto.
  split; [|reflexivity].
  destruct (down_state_cases name s) as [-> | (d0 & c0 & ws & Hd0 & Hc0 & Hws & ->)].
  { apply (up_video name s d (VList fs) fs c); auto. }
  rewrite Hd in Hd0. injection Hd0 as <-.
  rewrite Hc in Hc0. injection Hc0 as <-.
  rewrite (up_video name _ d (VList fs) fs c); auto.
  2:{ unfold descriptor_of. now rewrite docs_alter_ne. }
  f_equal. apply map_eq. intros i.
  destruct (decide (i = c)) as [->|Hi].
  - rewrite !lookup_alter_eq.
    rewrite !(lookup_alter_ne _ _ "datasets" c) by congruence.
    rewrite lookup_alter_eq.
    destruct (s !! c) as [l|]; simpl; [|reflexivity].
    f_equal. now apply bulk_apart.
  - rewrite !(lookup_alter_ne _ _ c i) by congruence.
    destruct (decide (i = "datasets")) as [->|Hi'].
    + rewrite !lookup_alter_eq. now rewrite (lookup_alter_ne _ _ c "datasets").
    + rewrite !(lookup_alter_ne _ _ "datasets" i) by congruence.
      now rewrite (lookup_alter_ne _ _ c i) by congruence.
Qed.

End DownFurther.

(** ** Further facts about the state controller *)

Lemma last_cons_default {A} (x d : A) l : List.last (x :: l) d = List.last l x.
Proof.
  revert x d. induction l as [|y l IH]; intros x d; [reflexivity|].
  change (List.last (x :: y :: l) d) with (List.last (y :: l) d).
  now rewrite !IH.
Qed.

Section ServerFurther.

Import StateController.

Variables DS IT : Type.
Variable Dataset : value -> result DS.
Variable iter_samples : DS -> result IT.

Lemma emitted_app t1 t2 : emitted (t1 ++ t2) = emitted t1 ++ emitted t2.
Proof. unfold emitted. apply flat_map_app. Qed.

(** One update: the state and the emitted payloads after it. *)
Lemma on_update_step sender st (w : server DS IT) :
  state (self (fst (on_update Dataset iter_samples sender st w)))
    = (if accepted DS IT Dataset iter_samples st then st else state (self w)) /\
  emitted (trace (fst (on_update Dataset iter_samples sender st w)))
    = emitted (trace w) ++ (if accepted DS IT Dataset iter_samples st then [st] else []).
Proof.
  unfold on_update, accepted.
  destruct (getitem st "dataset_name") as [name|e]; cbn;
    [|now rewrite app_nil_r].
  destruct (truthy name); cbn; [|now rewrite app_nil_r].
  destruct (Dataset name) as [d|e]; cbn;
    [|rewrite emitted_app; cbn; now rewrite app_nil_r].
  destruct (iter_samples d) as [i|e]; cbn.
  - split; [reflexivity|]. rewrite !emitted_app. cbn.
    now rewrite !app_nil_r.
  - split; [reflexivity|]. rewrite !emitted_app. cbn. now rewrite !app_nil_r.
Qed.

(** X10. An update that is not gone through with (no [dataset_name], a
    falsy one, or a failing load) leaves the stored state and the sample
    iterator as they were and emits nothing, whether the handler returns
    or raises. *)
Theorem rejected_update_keeps_state sender st (w : server DS IT) :
  accepted DS IT Dataset iter_samples st = false ->
  state (self (fst (on_update Dataset iter_samples sender st w))) = state (self w) /\
  it (self (fst (on_update Dataset iter_samples sender st w))) = it (self w) /\
  connected (fst (on_update Dataset iter_samples sender st w)) = connected w /\
  emitted (trace (fst (on_update Dataset iter_samples sender st w))) = emitted (trace w).
Proof.
  intros Hrej. destruct (on_update_step sender st w) as [Hst Hem].
  rewrite Hst, Hem, Hrej, app_nil_r.
  repeat split.
  - unfold on_update, accepted in *.
    destruct (getitem st "dataset_name") as [name|e]; [|reflexivity].
    destruct (truthy name); [|reflexivity].
    destruct (Dataset name) as [d|e]; [|reflexivity].
    destruct (iter_samples d) as [i|e]; [discriminate | reflexivity].
  - unfold on_update.
    destruct (getitem st "dataset_name") as [name|e]; [|reflexivity].
    destruct (truthy name); [|reflexivity].
    destruct (Dataset name) as [d|e]; [|reflexivity].
    destruct (iter_samples d) as [i|e]; reflexivity.
Qed.

(** X11. When the dataset loads but its sample iterator cannot be built,
    the handler raises with the controller half updated: [ds] is the new
    dataset, while [state] and [it] are still the previous ones and
    nothing has been emitted. *)
Theorem iterator_failure_leaves_stale_state sender st name d e (w : server DS IT) :
  getitem st "dataset_name" = Ok name ->
  truthy name = true ->
  Dataset name = Ok d ->
  iter_samples d = Raise e ->
  exists w',
    on_update Dataset iter_samples sender st w = (w', Raise e) /\
    ds (self w') = Some d /\
    state (self w') = state (self w) /\
    it (self w') = it (self w) /\
    emitted (trace w') = emitted (trace w).
Proof.
  intros Hname Htruthy Hds Hit. eexists.
  split; [unfold on_update; rewrite Hname, Htruthy, Hds, Hit; reflexivity|].
  cbn. repeat split. rewrite !emitted_app. cbn. now rewrite !app_nil_r.
Qed.

(** X12. After any sequence of updates, [get_current_state] answers the
    last update that was gone through with, not the last one received;
    when none was, it still answers the state held before. *)
Theorem current_state_is_last_accepted msgs arg (w : server DS IT) :
  snd (on_get_current_state arg (handle_updates Dataset iter_samples msgs w))
  = Ok (List.last (List.filter (accepted DS IT Dataset iter_samples) (map snd msgs))
          (state (self w))).
Proof.
  cbn. f_equal. revert w.
  induction msgs as [|[sender st] msgs IH]; intros w; [reflexivity|].
  cbn [handle_updates fold_left map List.filter fst snd].
  fold (handle_updates Dataset iter_samples msgs
          (fst (on_update Dataset iter_samples sender st w))).
  rewrite IH. rewrite (proj1 (on_update_step sender st w)).
  destruct (accepted DS IT Dataset iter_samples st); [|reflexivity].
  now rewrite last_cons_default.
Qed.

(** X13. Over any sequence of updates, the payloads emitted are exactly
    the updates that were gone through with, each once and in the order
    received. *)
Theorem emitted_are_accepted_updates msgs (w : server DS IT) :
  emitted (trace (handle_updates Dataset iter_samples msgs w))
  = emitted (trace w)
    ++ List.filter (accepted DS IT Dataset iter_samples) (map snd msgs).
Proof.
  revert w. induction msgs as [|[sender st] msgs IH]; intros w;
    [cbn; now rewrite app_nil_r|].
  cbn [handle_updates fold_left map List.filter fst snd].
  fold (handle_updates Dataset iter_samples msgs
          (fst (on_update Dataset iter_samples sender st w))).
  rewrite IH. rewrite (proj2 (on_update_step sender st w)).
  rewrite <- app_assoc.
  destruct (accepted DS IT Dataset iter_samples st); reflexivity.
Qed.

End ServerFurther.

(** ** Instances *)

Lemma unknown_dataset_raises_witness :
  up "roses" Flowers.after_up = (Flowers.after_up, Raise TypeError) /\
  down Flowers.strict_aggregate "roses" Flowers.after_up
    = (Flowers.after_up, Raise TypeError).
Proof.
  apply (unknown_dataset_raises Flowers.strict_aggregate "roses" Flowers.after_up).
  vm_compute. reflexivity.
Defined.

Lemma up_unnamed_field_raises_witness :
  up "flowers" Flowers.unnamed_field = (Flowers.unnamed_field, Raise (KeyError "name")) \/
  up "flowers" Flowers.unnamed_field = (Flowers.unnamed_field, Raise TypeError).
Proof.
  apply (up_unnamed_field_raises "flowers" Flowers.unnamed_field
           (Flowers.descriptor "video"
              [Flowers.filepath_field;
               VDict [("ftype", VStr "fiftyone.core.fields.IntField")]])
           [Flowers.filepath_field;
            VDict [("ftype", VStr "fiftyone.core.fields.IntField")]]);
    vm_compute; reflexivity.
Defined.

Lemma up_keeps_other_catalog_entries_witness :
  descriptor_of "birds" (fst (up "flowers" Flowers.with_birds)) = Some Flowers.birds.
Proof.
  apply (up_keeps_other_catalog_entries "flowers" "birds" Flowers.with_birds Flowers.birds).
  - vm_compute. reflexivity.
  - vm_compute. reflexivity.
  - intros d Hd. vm_compute in Hd. injection Hd as <-. vm_compute. discriminate.
Defined.

Lemma up_without_frames_changes_nothing_witness :
  up "flowers" Flowers.after_up = (Flowers.after_up, Ok tt).
Proof.
  apply (up_without_frames_changes_nothing "flowers" Flowers.after_up
           (Flowers.descriptor "video" [Flowers.filepath_field])
           [Flowers.filepath_field] "samples.flowers");
    try (vm_compute; reflexivity).
  intros x Hx. vm_compute in Hx. destruct Hx as [<-|[]]. vm_compute. reflexivity.
Defined.

Lemma down_writes_sample_collection_only_witness :
  fst (down Flowers.strict_aggregate "flowers" Flowers.frames_among_samples)
    !! "frames.samples.flowers"
  = Flowers.frames_among_samples !! "frames.samples.flowers".
Proof.
  apply (down_writes_sample_collection_only Flowers.strict_aggregate "flowers"
           Flowers.frames_among_samples "frames.samples.flowers").
  intros d Hd. vm_compute in Hd. injection Hd as <-. vm_compute. discriminate.
Defined.

Lemma down_missing_sample_id_writes_nothing_witness :
  down Flowers.strict_aggregate "flowers" Flowers.orphan_frame
    = (Flowers.orphan_frame, Raise (KeyError "_sample_id")).
Proof.
  apply (down_missing_sample_id_writes_nothing Flowers.strict_aggregate "flowers"
           Flowers.orphan_frame (Flowers.descriptor "video" [Flowers.filepath_field])
           [Flowers.filepath_field] "samples.flowers"
           [("_id", VOid 104); ("frame_number", VInt 1)]);
    try (vm_compute; reflexivity).
  vm_compute. right. left. reflexivity.
Defined.

Lemma down_bulk_write_then_counts_witness :
  exists s',
    down Flowers.strict_aggregate "flowers" Flowers.frames_among_samples
    = (s', match Flowers.strict_aggregate "samples.flowers" group_stage s' with
           | Ok _ => Ok tt
           | Raise e => Raise e
           end) /\
    Forall2 (frames_set_from [Flowers.frame 101 1])
      [Flowers.sample; Flowers.frame 101 1] (docs "samples.flowers" s') /\
    (forall c', c' <> "samples.flowers" -> s' !! c' = Flowers.frames_among_samples !! c').
Proof.
  apply (down_bulk_write_then_counts Flowers.strict_aggregate "flowers"
           Flowers.frames_among_samples
           (Flowers.descriptor "video" [Flowers.filepath_field])
           [Flowers.filepath_field] "samples.flowers");
    try (vm_compute; reflexivity).
  - vm_compute. discriminate.
  - vm_compute. repeat constructor; simpl; intuition discriminate.
Defined.

Lemma up_after_down_is_up_witness :
  up "flowers" (fst (down Flowers.strict_aggregate "flowers" Flowers.frames_among_samples))
    = up "flowers" Flowers.frames_among_samples /\
  snd (up "flowers" Flowers.frames_among_samples) = Ok tt.
Proof.
  apply (up_after_down_is_up Flowers.strict_aggregate "flowers"
           Flowers.frames_among_samples
           (Flowers.descriptor "video" [Flowers.filepath_field])
           [Flowers.filepath_field] "samples.flowers");
    try (vm_compute; reflexivity).
  discriminate.
Defined.

Lemma rejected_update_keeps_state_witness :
  StateController.state (StateController.self (fst (StateController.on_update
     StateController.always_loads StateController.never_iterates
     1 (StateController.update_for (VStr "flowers")) StateController.two_sessions)))
  = StateController.state (StateController.self StateController.two_sessions) /\
  StateController.it (StateController.self (fst (StateController.on_update
     StateController.always_loads StateController.never_iterates
     1 (StateController.update_for (VStr "flowers")) StateController.two_sessions)))
  = StateController.it (StateController.self StateController.two_sessions) /\
  StateController.connected (fst (StateController.on_update
     StateController.always_loads StateController.never_iterates
     1 (StateController.update_for (VStr "flowers")) StateController.two_sessions))
  = StateController.connected StateController.two_sessions /\
  StateController.emitted (StateController.trace (fst (StateController.on_update
     StateController.always_loads StateController.never_iterates
     1 (StateController.update_for (VStr "flowers")) StateController.two_sessions)))
  = StateController.emitted (StateController.trace StateController.two_sessions).
Proof.
  apply (rejected_update_keeps_state unit unit
           StateController.always_loads StateController.never_iterates
           1 (StateController.update_for (VStr "flowers")) StateController.two_sessions).
  reflexivity.
Defined.

Lemma iterator_failure_leaves_stale_state_witness :
  exists w',
    StateController.on_update StateController.always_loads StateController.never_iterates
      1 (StateController.update_for (VStr "flowers")) StateController.two_sessions
    = (w', Raise TypeError) /\
    StateController.ds (StateController.self w') = Some tt /\
    StateController.state (StateController.self w')
      = StateController.state (StateController.self StateController.two_sessions) /\
    StateController.it (StateController.self w')
      = StateController.it (StateController.self StateController.two_sessions) /\
    StateController.emitted (StateController.trace w')
      = StateController.emitted (StateController.trace StateController.two_sessions).
Proof.
  apply (iterator_failure_leaves_stale_state unit unit
           StateController.always_loads StateController.never_iterates
           1 (StateController.update_for (VStr "flowers")) (VStr "flowers") tt TypeError
           StateController.two_sessions);
    reflexivity.
Defined.
